(** * Course catalogue and application tracking: the entity store and its workspaces

    A shallow embedding of
    - the relational schema, the row-level security policies, the
      [update_updated_at_column] and [handle_new_user] triggers of
      [supabase/migrations/20250708161226-...sql];
    - the request handlers of [CourseCard.tsx], [StudentDashboard.tsx],
      [AdminDashboard.tsx] and the catalogue filter of [Index.tsx].

    The declarative parts (tables, constraints, policies) are transcribed as
    data; the way PostgreSQL evaluates them (permissive policies are OR-ed,
    no applicable policy means no row, [USING] silently filters existing rows,
    [WITH CHECK] rejects the statement) is the executable function that
    interprets that data. *)

From Stdlib Require Import List String Ascii Bool NArith ZArith Lia.
Import ListNotations.
Open Scope string_scope.
Open Scope list_scope.

(** ** Column types *)

(** [UUID]: a 128-bit value, kept as a number. *)
Definition uuid := N.
Bind Scope N_scope with uuid.

(** [TIMESTAMP WITH TIME ZONE]: an instant, kept as an integer. *)
Definition timestamp := Z.
Bind Scope Z_scope with timestamp.

(** [CREATE TYPE public.app_role AS ENUM ('student', 'admin')]. *)
Inductive app_role := student | admin.

Definition app_role_eqb (a b : app_role) : bool :=
  match a, b with
  | student, student | admin, admin => true
  | _, _ => false
  end.

(** ** Tables *)

Module Profile.
Record t := mk
  { id : uuid;                      (* PRIMARY KEY *)
    user_id : uuid;                 (* NOT NULL UNIQUE REFERENCES auth.users *)
    first_name : option string;
    last_name : option string;
    phone : option string;
    avatar_url : option string;
    created_at : timestamp;
    updated_at : timestamp }.
End Profile.

Module UserRole.
Record t := mk
  { id : uuid;                      (* PRIMARY KEY *)
    user_id : uuid;                 (* NOT NULL REFERENCES auth.users *)
    role : app_role;                (* NOT NULL; UNIQUE (user_id, role) *)
    created_at : timestamp }.
End UserRole.

Module Course.
Record t := mk
  { id : uuid;                      (* PRIMARY KEY *)
    name : string;                  (* NOT NULL *)
    description : option string;    (* nullable *)
    duration : option string;       (* nullable *)
    availability : bool;            (* NOT NULL *)
    max_students : option Z;        (* nullable *)
    created_at : timestamp;
    updated_at : timestamp }.
End Course.

Module Application.
Record t := mk
  { id : uuid;                      (* PRIMARY KEY *)
    student_id : uuid;              (* NOT NULL REFERENCES auth.users *)
    course_id : uuid;               (* NOT NULL REFERENCES courses *)
    status : string;                (* NOT NULL, CHECK (status IN (...)) *)
    applied_at : timestamp;
    updated_at : timestamp }.       (* UNIQUE (student_id, course_id) *)
End Application.

(** The store: the identities of [auth.users] and the four public tables,
    each in insertion order. *)
Record db := mkdb
  { users : list uuid;
    profiles : list Profile.t;
    user_roles : list UserRole.t;
    courses : list Course.t;
    course_applications : list Application.t }.

Definition set_users (d : db) (x : list uuid) : db :=
  mkdb x (profiles d) (user_roles d) (courses d) (course_applications d).
Definition set_profiles (d : db) (x : list Profile.t) : db :=
  mkdb (users d) x (user_roles d) (courses d) (course_applications d).
Definition set_user_roles (d : db) (x : list UserRole.t) : db :=
  mkdb (users d) (profiles d) x (courses d) (course_applications d).
Definition set_courses (d : db) (x : list Course.t) : db :=
  mkdb (users d) (profiles d) (user_roles d) x (course_applications d).
Definition set_course_applications (d : db) (x : list Application.t) : db :=
  mkdb (users d) (profiles d) (user_roles d) (courses d) x.

(** ** The caller and the role resolver *)

(** [auth.uid()]: the identity of the caller, [None] (SQL NULL) for an
    anonymous request. *)
Definition caller := option uuid.

(** [auth.uid() = col] inside a policy: a comparison with NULL is NULL, which
    a policy treats as "row not admitted". *)
Definition uid_is (c : caller) (col : uuid) : bool :=
  match c with
  | Some u => N.eqb u col
  | None => false
  end.

(** [public.has_role(_user_id, _role)]: [EXISTS (SELECT 1 FROM user_roles
    WHERE user_id = _user_id AND role = _role)]. *)
Definition has_role (d : db) (_user_id : caller) (_role : app_role) : bool :=
  existsb (fun r => uid_is _user_id (UserRole.user_id r)
                    && app_role_eqb (UserRole.role r) _role)
          (user_roles d).

(** ** Row-level security policies *)

Inductive command := SELECT | INSERT | UPDATE | DELETE | ALL.

Definition command_eqb (a b : command) : bool :=
  match a, b with
  | SELECT, SELECT | INSERT, INSERT | UPDATE, UPDATE
  | DELETE, DELETE | ALL, ALL => true
  | _, _ => false
  end.

(** [CREATE POLICY name ON table FOR cmd USING (...) WITH CHECK (...)]. *)
Record policy (row : Type) := mkpolicy
  { pol_name : string;
    pol_for : command;
    pol_using : option (db -> caller -> row -> bool);
    pol_with_check : option (db -> caller -> row -> bool) }.
Arguments mkpolicy {row}.
Arguments pol_name {row}.
Arguments pol_for {row}.
Arguments pol_using {row}.
Arguments pol_with_check {row}.

Definition profiles_policies : list (policy Profile.t) :=
  [ mkpolicy "Users can view their own profile" SELECT
      (Some (fun _ c r => uid_is c (Profile.user_id r))) None;
    mkpolicy "Users can update their own profile" UPDATE
      (Some (fun _ c r => uid_is c (Profile.user_id r))) None;
    mkpolicy "Users can insert their own profile" INSERT
      None (Some (fun _ c r => uid_is c (Profile.user_id r)));
    mkpolicy "Admins can view all profiles" SELECT
      (Some (fun d c _ => has_role d c admin)) None ].

Definition user_roles_policies : list (policy UserRole.t) :=
  [ mkpolicy "Users can view their own roles" SELECT
      (Some (fun _ c r => uid_is c (UserRole.user_id r))) None;
    mkpolicy "Admins can manage all roles" ALL
      (Some (fun d c _ => has_role d c admin)) None ].

Definition courses_policies : list (policy Course.t) :=
  [ mkpolicy "Anyone can view available courses" SELECT
      (Some (fun _ _ r => Bool.eqb (Course.availability r) true)) None;
    mkpolicy "Admins can manage courses" ALL
      (Some (fun d c _ => has_role d c admin)) None ].

Definition course_applications_policies : list (policy Application.t) :=
  [ mkpolicy "Students can view their own applications" SELECT
      (Some (fun _ c r => uid_is c (Application.student_id r))) None;
    mkpolicy "Students can create applications" INSERT
      None (Some (fun _ c r => uid_is c (Application.student_id r)));
    mkpolicy "Students can update their own applications" UPDATE
      (Some (fun _ c r => uid_is c (Application.student_id r))) None;
    mkpolicy "Admins can manage all applications" ALL
      (Some (fun d c _ => has_role d c admin)) None ].

(** How the store evaluates the policies of a table with row-level security
    enabled. *)
Section RowSecurity.
Context {row : Type}.
Variable pols : list (policy row).
Variable d : db.
Variable c : caller.

(** A policy applies to a command when it was declared for it or [FOR ALL]. *)
Definition applies (p : policy row) (cmd : command) : bool :=
  command_eqb (pol_for p) cmd || command_eqb (pol_for p) ALL.

Definition eval_using (p : policy row) (r : row) : bool :=
  match pol_using p with
  | Some u => u d c r
  | None => false
  end.

(** A policy without [WITH CHECK] checks new rows with its [USING]. *)
Definition eval_with_check (p : policy row) (r : row) : bool :=
  match pol_with_check p with
  | Some w => w d c r
  | None => eval_using p r
  end.

(** An existing row is admitted for [cmd] when one applicable policy admits
    it; with no applicable policy nothing is admitted. *)
Definition using_ok (cmd : command) (r : row) : bool :=
  existsb (fun p => applies p cmd && eval_using p r) pols.

(** A new row is accepted for [cmd] when one applicable policy accepts it. *)
Definition check_ok (cmd : command) (r : row) : bool :=
  existsb (fun p => applies p cmd && eval_with_check p r) pols.

(** [SELECT]: the rows the caller sees. *)
Definition rls_select (rows : list row) : list row :=
  filter (using_ok SELECT) rows.

(** Rows an [UPDATE ... WHERE flt] or [DELETE ... WHERE flt] acts on: the
    filter reads the row, so the row must be visible ([SELECT] policies)
    and admitted for the command itself.  Other rows are skipped without
    an error. *)
Definition targets (cmd : command) (flt : row -> bool) (r : row) : bool :=
  flt r && using_ok SELECT r && using_ok cmd r.
End RowSecurity.

(** ** Reads *)

(** [supabase.from('courses').select('*')] *)
Definition select_courses (d : db) (c : caller) : list Course.t :=
  rls_select courses_policies d c (courses d).

(** [Index.fetchCourses]:
    [.from('courses').select('*').eq('availability', true).order(...)], the
    list the catalogue filters.  The rows are kept in table order: nothing
    below depends on the [ORDER BY created_at DESC]. *)
Definition fetchCourses (d : db) (c : caller) : list Course.t :=
  filter Course.availability (select_courses d c).

(** [supabase.from('course_applications').select(...)] *)
Definition select_course_applications (d : db) (c : caller)
  : list Application.t :=
  rls_select course_applications_policies d c (course_applications d).

(** [supabase.from('profiles').select(...)] *)
Definition select_profiles (d : db) (c : caller) : list Profile.t :=
  rls_select profiles_policies d c (profiles d).

(** ** Statements that write *)

(** What a rejected statement reports.  A rejected statement leaves the store
    as it was. *)
Inductive error :=
| PolicyDenied          (* a new row violates row-level security *)
| ConstraintViolation   (* primary key, unique, foreign key or check *)
| InvalidInput.         (* a filter value that is not a uuid *)

Inductive result (A : Type) :=
| Ok (a : A)
| Err (e : error).
Arguments Ok {A}.
Arguments Err {A}.

Definition bind {A B} (m : result A) (k : A -> result B) : result B :=
  match m with
  | Ok a => k a
  | Err e => Err e
  end.

Notation "x <- m ;; k" := (bind m (fun x => k))
  (at level 61, m at next level, right associativity).

(** [guard b e]: go on when [b] holds, fail with [e] otherwise. *)
Definition guard (b : bool) (e : error) : result unit :=
  if b then Ok tt else Err e.

(** What a statement reads from its environment: the clock ([now()]) and
    the values [gen_random_uuid()] returns, numbered by call. *)
Record env := mkenv
  { now : timestamp;
    gen_random_uuid : nat -> uuid }.

Definition default {A} (dflt : A) (o : option A) : A :=
  match o with
  | Some a => a
  | None => dflt
  end.

(** No two elements equal: what a primary key or a unique constraint asks of
    a column (or a pair of columns). *)
Fixpoint distinctb {A} (eqb : A -> A -> bool) (l : list A) : bool :=
  match l with
  | [] => true
  | x :: t => negb (existsb (eqb x) t) && distinctb eqb t
  end.

Definition pair_eqb (a b : uuid * uuid) : bool :=
  N.eqb (fst a) (fst b) && N.eqb (snd a) (snd b).

Definition mem (x : uuid) (l : list uuid) : bool := existsb (N.eqb x) l.

(** *** course_applications *)

Definition statuses : list string := ["pending"; "approved"; "rejected"].

(** [CHECK (status IN ('pending', 'approved', 'rejected'))] *)
Definition status_check (s : string) : bool := existsb (String.eqb s) statuses.

(** [UNIQUE(student_id, course_id)] *)
Definition application_key (a : Application.t) : uuid * uuid :=
  (Application.student_id a, Application.course_id a).

(** The constraints one row of [course_applications] has to meet by itself
    and against the tables it references. *)
Definition application_row_ok (d : db) (a : Application.t) : bool :=
  status_check (Application.status a)
  && mem (Application.student_id a) (users d)
  && mem (Application.course_id a) (map Course.id (courses d)).

(** Primary key and unique constraint over the whole table. *)
Definition applications_unique (rows : list Application.t) : bool :=
  distinctb N.eqb (map Application.id rows)
  && distinctb pair_eqb (map application_key rows).

(** The same two constraints for one new row against the stored ones: its
    id and its (student, course) pair are not taken. *)
Definition application_is_new (rows : list Application.t) (a : Application.t)
  : bool :=
  negb (mem (Application.id a) (map Application.id rows))
  && negb (existsb (pair_eqb (application_key a)) (map application_key rows)).

(** The columns of an [INSERT INTO course_applications]; [None] leaves a
    column to its [DEFAULT]. *)
Module NewApplication.
Record t := mk
  { id : option uuid;
    student_id : uuid;
    course_id : uuid;
    status : option string;
    applied_at : option timestamp;
    updated_at : option timestamp }.
End NewApplication.

Definition new_application_row (e : env) (n : NewApplication.t)
  : Application.t :=
  Application.mk
    (default (gen_random_uuid e 0) (NewApplication.id n))
    (NewApplication.student_id n)
    (NewApplication.course_id n)
    (default "pending" (NewApplication.status n))
    (default (now e) (NewApplication.applied_at n))
    (default (now e) (NewApplication.updated_at n)).

(** [INSERT INTO course_applications]: the new row is built with the
    defaults, checked against the [WITH CHECK] of the policies, then against
    the constraints, and appended. *)
Definition insert_course_application
  (e : env) (c : caller) (n : NewApplication.t) (d : db) : result db :=
  let r := new_application_row e n in
  _ <- guard (check_ok course_applications_policies d c INSERT r)
             PolicyDenied ;;
  _ <- guard (application_row_ok d r
              && application_is_new (course_applications d) r)
             ConstraintViolation ;;
  Ok (set_course_applications d (course_applications d ++ [r])).

(** The [SET] list of an [UPDATE course_applications]; [None] keeps the
    column. *)
Module ApplicationPatch.
Record t := mk
  { id : option uuid;
    student_id : option uuid;
    course_id : option uuid;
    status : option string;
    applied_at : option timestamp;
    updated_at : option timestamp }.
End ApplicationPatch.

Definition patch_application (p : ApplicationPatch.t) (a : Application.t)
  : Application.t :=
  Application.mk
    (default (Application.id a) (ApplicationPatch.id p))
    (default (Application.student_id a) (ApplicationPatch.student_id p))
    (default (Application.course_id a) (ApplicationPatch.course_id p))
    (default (Application.status a) (ApplicationPatch.status p))
    (default (Application.applied_at a) (ApplicationPatch.applied_at p))
    (default (Application.updated_at a) (ApplicationPatch.updated_at p)).

(** [update_updated_at_column()] as the [BEFORE UPDATE] row trigger of
    [course_applications]: [NEW.updated_at = now(); RETURN NEW]. *)
Definition touch_application (e : env) (new : Application.t)
  : Application.t :=
  Application.mk (Application.id new) (Application.student_id new)
    (Application.course_id new) (Application.status new)
    (Application.applied_at new) (now e).

(** The rows an [UPDATE course_applications ... WHERE flt] of caller [c]
    rewrites. *)
Definition update_application_targets
  (d : db) (c : caller) (flt : Application.t -> bool) : Application.t -> bool :=
  targets course_applications_policies d c UPDATE flt.

(** The row the statement stores for a target: the [SET] list applied, then
    the [BEFORE UPDATE] trigger. *)
Definition updated_application
  (e : env) (p : ApplicationPatch.t) (a : Application.t) : Application.t :=
  touch_application e (patch_application p a).

(** [UPDATE course_applications SET ... WHERE flt].  The [SET] list holds
    constants, so the keys of the rewritten table can be checked once, on
    the table the statement leaves. *)
Definition update_course_applications
  (e : env) (c : caller) (flt : Application.t -> bool)
  (p : ApplicationPatch.t) (d : db) : result db :=
  let hit := update_application_targets d c flt in
  let new := updated_application e p in
  let rows := course_applications d in
  _ <- guard (forallb (fun r => implb (hit r)
                 (check_ok course_applications_policies d c UPDATE (new r)
                  && using_ok course_applications_policies d c SELECT (new r)))
               rows)
             PolicyDenied ;;
  let rows' := map (fun r => if hit r then new r else r) rows in
  _ <- guard (forallb (fun r => implb (hit r) (application_row_ok d (new r)))
                      rows
              && applications_unique rows')
             ConstraintViolation ;;
  Ok (set_course_applications d rows').

(** [DELETE FROM course_applications WHERE flt]: the rows the caller may
    delete among those the filter selects go; the statement does not fail
    when there are none. *)
Definition delete_course_applications
  (c : caller) (flt : Application.t -> bool) (d : db) : result db :=
  let hit := targets course_applications_policies d c DELETE flt in
  Ok (set_course_applications d
        (filter (fun r => negb (hit r)) (course_applications d))).

(** *** courses *)

(** The columns of an [INSERT INTO courses].  [max_students] is nullable and
    has a default: [None] leaves it to [DEFAULT 50], [Some None] stores
    NULL. *)
Module NewCourse.
Record t := mk
  { id : option uuid;
    name : string;
    description : option string;
    duration : option string;
    availability : option bool;
    max_students : option (option Z);
    created_at : option timestamp;
    updated_at : option timestamp }.
End NewCourse.

Definition new_course_row (e : env) (n : NewCourse.t) : Course.t :=
  Course.mk
    (default (gen_random_uuid e 0) (NewCourse.id n))
    (NewCourse.name n)
    (NewCourse.description n)
    (NewCourse.duration n)
    (default true (NewCourse.availability n))
    (default (Some 50%Z) (NewCourse.max_students n))
    (default (now e) (NewCourse.created_at n))
    (default (now e) (NewCourse.updated_at n)).

Definition insert_course (e : env) (c : caller) (n : NewCourse.t) (d : db)
  : result db :=
  let r := new_course_row e n in
  _ <- guard (check_ok courses_policies d c INSERT r) PolicyDenied ;;
  _ <- guard (negb (mem (Course.id r) (map Course.id (courses d))))
             ConstraintViolation ;;
  Ok (set_courses d (courses d ++ [r])).

(** The [SET] list of an [UPDATE courses]; for a nullable column
    [Some None] stores NULL. *)
Module CoursePatch.
Record t := mk
  { id : option uuid;
    name : option string;
    description : option (option string);
    duration : option (option string);
    availability : option bool;
    max_students : option (option Z);
    created_at : option timestamp;
    updated_at : option timestamp }.
End CoursePatch.

Definition patch_course (p : CoursePatch.t) (r : Course.t) : Course.t :=
  Course.mk
    (default (Course.id r) (CoursePatch.id p))
    (default (Course.name r) (CoursePatch.name p))
    (default (Course.description r) (CoursePatch.description p))
    (default (Course.duration r) (CoursePatch.duration p))
    (default (Course.availability r) (CoursePatch.availability p))
    (default (Course.max_students r) (CoursePatch.max_students p))
    (default (Course.created_at r) (CoursePatch.created_at p))
    (default (Course.updated_at r) (CoursePatch.updated_at p)).

(** [update_updated_at_column()] as the [BEFORE UPDATE] row trigger of
    [courses]. *)
Definition touch_course (e : env) (new : Course.t) : Course.t :=
  Course.mk (Course.id new) (Course.name new) (Course.description new)
    (Course.duration new) (Course.availability new) (Course.max_students new)
    (Course.created_at new) (now e).

Definition update_course_targets
  (d : db) (c : caller) (flt : Course.t -> bool) : Course.t -> bool :=
  targets courses_policies d c UPDATE flt.

Definition updated_course (e : env) (p : CoursePatch.t) (r : Course.t)
  : Course.t :=
  touch_course e (patch_course p r).

(** [course_applications.course_id REFERENCES courses(id)]: every stored
    application still points at a stored course. *)
Definition applications_reference (rows : list Course.t)
  (apps : list Application.t) : bool :=
  forallb (fun a => mem (Application.course_id a) (map Course.id rows)) apps.

Definition update_courses
  (e : env) (c : caller) (flt : Course.t -> bool) (p : CoursePatch.t) (d : db)
  : result db :=
  let hit := update_course_targets d c flt in
  let new := updated_course e p in
  let rows := courses d in
  _ <- guard (forallb (fun r => implb (hit r)
                 (check_ok courses_policies d c UPDATE (new r)
                  && using_ok courses_policies d c SELECT (new r)))
               rows)
             PolicyDenied ;;
  let rows' := map (fun r => if hit r then new r else r) rows in
  _ <- guard (distinctb N.eqb (map Course.id rows')
              && applications_reference rows' (course_applications d))
             ConstraintViolation ;;
  Ok (set_courses d rows').

(** [DELETE FROM courses WHERE flt]; the applications of a deleted course go
    with it ([ON DELETE CASCADE], which is not subject to the policies). *)
Definition delete_courses (c : caller) (flt : Course.t -> bool) (d : db)
  : result db :=
  let hit := targets courses_policies d c DELETE flt in
  let gone := map Course.id (filter hit (courses d)) in
  Ok (mkdb (users d) (profiles d) (user_roles d)
        (filter (fun r => negb (hit r)) (courses d))
        (filter (fun a => negb (mem (Application.course_id a) gone))
                (course_applications d))).

(** *** profiles *)

Module ProfilePatch.
Record t := mk
  { id : option uuid;
    user_id : option uuid;
    first_name : option (option string);
    last_name : option (option string);
    phone : option (option string);
    avatar_url : option (option string);
    created_at : option timestamp;
    updated_at : option timestamp }.
End ProfilePatch.

Definition patch_profile (p : ProfilePatch.t) (r : Profile.t) : Profile.t :=
  Profile.mk
    (default (Profile.id r) (ProfilePatch.id p))
    (default (Profile.user_id r) (ProfilePatch.user_id p))
    (default (Profile.first_name r) (ProfilePatch.first_name p))
    (default (Profile.last_name r) (ProfilePatch.last_name p))
    (default (Profile.phone r) (ProfilePatch.phone p))
    (default (Profile.avatar_url r) (ProfilePatch.avatar_url p))
    (default (Profile.created_at r) (ProfilePatch.created_at p))
    (default (Profile.updated_at r) (ProfilePatch.updated_at p)).

(** [update_updated_at_column()] as the [BEFORE UPDATE] row trigger of
    [profiles]. *)
Definition touch_profile (e : env) (new : Profile.t) : Profile.t :=
  Profile.mk (Profile.id new) (Profile.user_id new) (Profile.first_name new)
    (Profile.last_name new) (Profile.phone new) (Profile.avatar_url new)
    (Profile.created_at new) (now e).

Definition update_profile_targets
  (d : db) (c : caller) (flt : Profile.t -> bool) : Profile.t -> bool :=
  targets profiles_policies d c UPDATE flt.

Definition updated_profile (e : env) (p : ProfilePatch.t) (r : Profile.t)
  : Profile.t :=
  touch_profile e (patch_profile p r).

(** Primary key and [user_id ... UNIQUE] over the whole table. *)
Definition profiles_unique (rows : list Profile.t) : bool :=
  distinctb N.eqb (map Profile.id rows)
  && distinctb N.eqb (map Profile.user_id rows).

Definition update_profiles
  (e : env) (c : caller) (flt : Profile.t -> bool) (p : ProfilePatch.t)
  (d : db) : result db :=
  let hit := update_profile_targets d c flt in
  let new := updated_profile e p in
  let rows := profiles d in
  _ <- guard (forallb (fun r => implb (hit r)
                 (check_ok profiles_policies d c UPDATE (new r)
                  && using_ok profiles_policies d c SELECT (new r)))
               rows)
             PolicyDenied ;;
  let rows' := map (fun r => if hit r then new r else r) rows in
  _ <- guard (forallb (fun r => implb (hit r)
                                  (mem (Profile.user_id (new r)) (users d)))
                      rows
              && profiles_unique rows')
             ConstraintViolation ;;
  Ok (set_profiles d rows').

(** ** Identity lifecycle *)

(** A new row of [auth.users] as the signup trigger reads it: [NEW.id] and
    the two keys it takes from [NEW.raw_user_meta_data] (NULL when the
    provider sent none). *)
Record auth_user := mkuser
  { auth_id : uuid;
    meta_first_name : option string;
    meta_last_name : option string }.

(** [INSERT INTO public.profiles] run inside a [SECURITY DEFINER] function:
    the constraints are checked, the policies are not. *)
Definition definer_insert_profile (r : Profile.t) (d : db) : result db :=
  _ <- guard (negb (mem (Profile.id r) (map Profile.id (profiles d)))
              && negb (mem (Profile.user_id r)
                           (map Profile.user_id (profiles d)))
              && mem (Profile.user_id r) (users d))
             ConstraintViolation ;;
  Ok (set_profiles d (profiles d ++ [r])).

(** [UNIQUE(user_id, role)] *)
Definition same_assignment (a b : UserRole.t) : bool :=
  N.eqb (UserRole.user_id a) (UserRole.user_id b)
  && app_role_eqb (UserRole.role a) (UserRole.role b).

(** [INSERT INTO public.user_roles] run inside the same function. *)
Definition definer_insert_user_role (r : UserRole.t) (d : db) : result db :=
  _ <- guard (negb (mem (UserRole.id r) (map UserRole.id (user_roles d)))
              && negb (existsb (same_assignment r) (user_roles d))
              && mem (UserRole.user_id r) (users d))
             ConstraintViolation ;;
  Ok (set_user_roles d (user_roles d ++ [r])).

(** [public.handle_new_user()]: insert the profile, then assign the student
    role.  An error raised by either insert leaves the function. *)
Definition handle_new_user (e : env) (NEW : auth_user) (d : db) : result db :=
  d1 <- definer_insert_profile
          (Profile.mk (gen_random_uuid e 0) (auth_id NEW)
             (meta_first_name NEW) (meta_last_name NEW) None None
             (now e) (now e)) d ;;
  d2 <- definer_insert_user_role
          (UserRole.mk (gen_random_uuid e 1) (auth_id NEW) student (now e))
          d1 ;;
  Ok d2.

(** The identity provider inserts a row into [auth.users]; the trigger
    [on_auth_user_created] runs [handle_new_user] [AFTER INSERT ... FOR EACH
    ROW], inside the inserting statement: an error in the trigger is an error
    of the statement, and nothing of it is kept. *)
Definition create_user (e : env) (NEW : auth_user) (d : db) : result db :=
  _ <- guard (negb (mem (auth_id NEW) (users d))) ConstraintViolation ;;
  handle_new_user e NEW (set_users d (users d ++ [auth_id NEW])).

(** The identity provider deletes a row of [auth.users]: the three tables
    that reference it lose the rows of that identity ([ON DELETE CASCADE]). *)
Definition delete_user (u : uuid) (d : db) : db :=
  mkdb (filter (fun x => negb (N.eqb x u)) (users d))
       (filter (fun r => negb (N.eqb (Profile.user_id r) u)) (profiles d))
       (filter (fun r => negb (N.eqb (UserRole.user_id r) u)) (user_roles d))
       (courses d)
       (filter (fun a => negb (N.eqb (Application.student_id a) u))
               (course_applications d)).

(** What the store is after a statement: the new store when the statement
    went through, the old one when it was rejected. *)
Definition commit (d : db) (r : result db) : db :=
  match r with
  | Ok d' => d'
  | Err _ => d
  end.

(** ** Requests on the entity store *)

Inductive request :=
| InsertApplication (n : NewApplication.t)
| UpdateApplications (flt : Application.t -> bool) (p : ApplicationPatch.t)
| DeleteApplications (flt : Application.t -> bool)
| InsertCourse (n : NewCourse.t)
| UpdateCourses (flt : Course.t -> bool) (p : CoursePatch.t)
| DeleteCourses (flt : Course.t -> bool)
| UpdateProfiles (flt : Profile.t -> bool) (p : ProfilePatch.t).

Definition exec (e : env) (c : caller) (q : request) (d : db) : result db :=
  match q with
  | InsertApplication n => insert_course_application e c n d
  | UpdateApplications flt p => update_course_applications e c flt p d
  | DeleteApplications flt => delete_course_applications c flt d
  | InsertCourse n => insert_course e c n d
  | UpdateCourses flt p => update_courses e c flt p d
  | DeleteCourses flt => delete_courses c flt d
  | UpdateProfiles flt p => update_profiles e c flt p d
  end.

(** The states the store can be in.  The migration creates
    [course_applications] empty; from there the store moves by a request of
    some caller, by the identity provider creating or deleting an identity,
    or by a statement on the other tables only (role management, profile
    inserts), which leaves the applications as they are. *)
Inductive reachable : db -> Prop :=
| reach_init d :
    course_applications d = [] -> reachable d
| reach_request d e c q d' :
    reachable d -> exec e c q d = Ok d' -> reachable d'
| reach_create_user d e u d' :
    reachable d -> create_user e u d = Ok d' -> reachable d'
| reach_delete_user d u :
    reachable d -> reachable (delete_user u d)
| reach_elsewhere d d' :
    reachable d -> course_applications d' = course_applications d ->
    reachable d'.

(** ** The workspaces *)

(** What a handler leaves behind: the store, the title of the toast it
    shows, and the error the toast reports, if any. *)
Record outcome := mkoutcome
  { store : db;
    toast_title : string;
    toast_error : option error }.

(** [try { const { error } = await ...; if (error) throw error; toast(ok) }
     catch (error) { toast(ko) }] *)
Definition report (d : db) (r : result db) (ok ko : string) : outcome :=
  match r with
  | Ok d' => mkoutcome d' ok None
  | Err x => mkoutcome d ko (Some x)
  end.

(** [CourseCard.handleApply] *)
Definition handleApply (e : env) (user : caller) (course : Course.t) (d : db)
  : outcome :=
  match user with
  | None => mkoutcome d "Authentication Required" None
  | Some uid =>
      report d
        (insert_course_application e user
           (NewApplication.mk None uid (Course.id course) None None None) d)
        "Application Submitted" "Application Failed"
  end.

(** The form state of [StudentDashboard]: [{ first_name, last_name, phone }],
    each a string or null as fetched. *)
Record profile_form := mkform
  { form_first_name : option string;
    form_last_name : option string;
    form_phone : option string }.

(** [StudentDashboard.updateProfile]:
    [.from('profiles').update(profile).eq('user_id', user?.id)] *)
Definition updateProfile (e : env) (user : caller) (profile : profile_form)
  (d : db) : outcome :=
  report d
    (match user with
     | None => Err InvalidInput
     | Some uid =>
         update_profiles e user
           (fun r => N.eqb (Profile.user_id r) uid)
           (ProfilePatch.mk None None
              (Some (form_first_name profile))
              (Some (form_last_name profile))
              (Some (form_phone profile)) None None None) d
     end)
    "Profile Updated" "Update Failed".

(** The row [updateProfile] stores for a profile it rewrites: the three
    columns of the form, and the timestamp of the trigger. *)
Definition saved_profile (e : env) (profile : profile_form) (r : Profile.t)
  : Profile.t :=
  Profile.mk (Profile.id r) (Profile.user_id r) (form_first_name profile)
    (form_last_name profile) (form_phone profile) (Profile.avatar_url r)
    (Profile.created_at r) (now e).

(** [StudentDashboard.cancelApplication]:
    [.from('course_applications').delete().eq('id', applicationId)] *)
Definition cancelApplication (user : caller) (applicationId : uuid) (d : db)
  : outcome :=
  report d
    (delete_course_applications user
       (fun a => N.eqb (Application.id a) applicationId) d)
    "Application Cancelled" "Cancellation Failed".

(** The form state [newCourse] of [AdminDashboard]; [max_students] is
    [parseInt] of the field, sent as null when it is not a number. *)
Record course_form := mkcourseform
  { form_name : string;
    form_description : string;
    form_duration : string;
    form_availability : bool;
    form_max_students : option Z }.

(** [AdminDashboard.createCourse]: [.from('courses').insert(newCourse)] *)
Definition createCourse (e : env) (user : caller) (newCourse : course_form)
  (d : db) : outcome :=
  report d
    (insert_course e user
       (NewCourse.mk None (form_name newCourse)
          (Some (form_description newCourse))
          (Some (form_duration newCourse))
          (Some (form_availability newCourse))
          (Some (form_max_students newCourse)) None None) d)
    "Course Created" "Creation Failed".

(** [AdminDashboard.updateCourse]:
    [.from('courses').update({ name, description, duration, availability,
    max_students }).eq('id', course.id)] *)
Definition updateCourse (e : env) (user : caller) (course : Course.t) (d : db)
  : outcome :=
  report d
    (update_courses e user
       (fun r => N.eqb (Course.id r) (Course.id course))
       (CoursePatch.mk None (Some (Course.name course))
          (Some (Course.description course))
          (Some (Course.duration course))
          (Some (Course.availability course))
          (Some (Course.max_students course)) None None) d)
    "Course Updated" "Update Failed".

(** [AdminDashboard.deleteCourse]:
    [.from('courses').delete().eq('id', courseId)] *)
Definition deleteCourse (user : caller) (courseId : uuid) (d : db) : outcome :=
  report d
    (delete_courses user (fun r => N.eqb (Course.id r) courseId) d)
    "Course Deleted" "Deletion Failed".

(** [AdminDashboard.updateApplicationStatus]:
    [.from('course_applications').update({ status }).eq('id', applicationId)] *)
Definition updateApplicationStatus (e : env) (user : caller)
  (applicationId : uuid) (status : string) (d : db) : outcome :=
  report d
    (update_course_applications e user
       (fun a => N.eqb (Application.id a) applicationId)
       (ApplicationPatch.mk None None None (Some status) None None) d)
    "Application Updated" "Update Failed".

(** The controls of the three pages that write to the store. *)
Inductive control :=
| ApplyNow (course : Course.t)          (* CourseCard: "Apply Now" *)
| SaveProfile (profile : profile_form)  (* StudentDashboard: "Update Profile" *)
| Cancel (applicationId : uuid)         (* StudentDashboard: trash button *)
| AddCourse (newCourse : course_form)   (* AdminDashboard: "Create Course" *)
| SaveCourse (editingCourse : Course.t) (* AdminDashboard: "Update Course" *)
| RemoveCourse (courseId : uuid)        (* AdminDashboard: trash button *)
| Approve (applicationId : uuid)        (* AdminDashboard: check button *)
| Reject (applicationId : uuid).        (* AdminDashboard: cross button *)

(** The [onClick] / [onSubmit] wired to each control. *)
Definition press (e : env) (user : caller) (k : control) (d : db) : outcome :=
  match k with
  | ApplyNow course => handleApply e user course d
  | SaveProfile profile => updateProfile e user profile d
  | Cancel applicationId => cancelApplication user applicationId d
  | AddCourse newCourse => createCourse e user newCourse d
  | SaveCourse editingCourse => updateCourse e user editingCourse d
  | RemoveCourse courseId => deleteCourse user courseId d
  | Approve applicationId =>
      updateApplicationStatus e user applicationId "approved" d
  | Reject applicationId =>
      updateApplicationStatus e user applicationId "rejected" d
  end.

(** An entry of the [applications] state of a dashboard, as last fetched. *)
Record application_card := mkcard
  { card_id : uuid;
    card_status : string }.

(** [StudentDashboard]: [{application.status === 'pending' && <Button
    onClick={() => cancelApplication(application.id)}>}] *)
Definition student_controls (applications : list application_card)
  : list control :=
  flat_map (fun application =>
              if String.eqb (card_status application) "pending"
              then [Cancel (card_id application)]
              else [])
           applications.

(** [AdminDashboard]: [{application.status === 'pending' && (<Button
    onClick={() => updateApplicationStatus(application.id, 'approved')}>
    <Button onClick={() => updateApplicationStatus(application.id,
    'rejected')}>)}] *)
Definition admin_controls (applications : list application_card)
  : list control :=
  flat_map (fun application =>
              if String.eqb (card_status application) "pending"
              then [Approve (card_id application);
                    Reject (card_id application)]
              else [])
           applications.

(** One use of a workspace: who presses which control, and what the store
    reads from its environment while it serves the request. *)
Record action := mkaction
  { act_env : env;
    act_user : caller;
    act_control : control }.

Definition ws_step (d : db) (a : action) : db :=
  store (press (act_env a) (act_user a) (act_control a) d).

Definition ws_run (l : list action) (d : db) : db := fold_left ws_step l d.

(** Some stored application has id [x]. *)
Definition present (x : uuid) (d : db) : bool :=
  mem x (map Application.id (course_applications d)).

(** The row is another application than [x], or it is approved or
    rejected. *)
Definition decided_row (x : uuid) (a : Application.t) : bool :=
  implb (N.eqb (Application.id a) x)
        (String.eqb (Application.status a) "approved"
         || String.eqb (Application.status a) "rejected").

(** Every stored application with id [x] is approved or rejected. *)
Definition decided (x : uuid) (d : db) : bool :=
  forallb (decided_row x) (course_applications d).

(** No stored application with id [x] is pending. *)
Definition not_pending (x : uuid) (d : db) : bool :=
  forallb (fun a => implb (N.eqb (Application.id a) x)
                          (negb (String.eqb (Application.status a) "pending")))
          (course_applications d).

(** The application [x] is in the store before and after every action of the
    run: it is the same application throughout. *)
Fixpoint kept_along (x : uuid) (l : list action) (d : db) : bool :=
  present x d &&
  match l with
  | [] => true
  | a :: rest => kept_along x rest (ws_step d a)
  end.

(** ** The catalogue filter *)

(** [String.prototype.toLowerCase].  Texts are strings of 8-bit characters
    here: the letters A to Z are mapped to a to z and every other character
    is kept, as the method does on ASCII text. *)
Definition lower_ascii (a : ascii) : ascii :=
  let n := nat_of_ascii a in
  if Nat.leb 65 n && Nat.leb n 90 then ascii_of_nat (n + 32) else a.

Fixpoint toLowerCase (s : string) : string :=
  match s with
  | EmptyString => EmptyString
  | String a r => String (lower_ascii a) (toLowerCase r)
  end.

(** [s.includes(t)]: [t] occurs in [s] at some position. *)
Fixpoint includes (s t : string) : bool :=
  String.prefix t s ||
  match s with
  | EmptyString => false
  | String _ r => includes r t
  end.

(** How an expression ends: with a value, or with the [TypeError] thrown by
    a method call on null. *)
Inductive completion (A : Type) :=
| Normal (a : A)
| TypeError.
Arguments Normal {A}.
Arguments TypeError {A}.

(** The callback of the filter:
    [course.name.toLowerCase().includes(searchTerm.toLowerCase()) ||
     course.description.toLowerCase().includes(searchTerm.toLowerCase())];
    the right operand of [||] is evaluated only when the left one is false. *)
Definition course_matches (searchTerm : string) (course : Course.t)
  : completion bool :=
  if includes (toLowerCase (Course.name course)) (toLowerCase searchTerm)
  then Normal true
  else match Course.description course with
       | None => TypeError
       | Some description =>
           Normal (includes (toLowerCase description) (toLowerCase searchTerm))
       end.

(** [Array.prototype.filter]: the callback runs on the elements in order; an
    exception it throws ends the call. *)
Fixpoint array_filter {A} (f : A -> completion bool) (l : list A)
  : completion (list A) :=
  match l with
  | [] => Normal []
  | x :: rest =>
      match f x with
      | TypeError => TypeError
      | Normal keep =>
          match array_filter f rest with
          | TypeError => TypeError
          | Normal kept => Normal (if keep then x :: kept else kept)
          end
      end
  end.

(** [Index]: [const filteredCourses = courses.filter(course => ...)] *)
Definition filteredCourses (courses : list Course.t) (searchTerm : string)
  : completion (list Course.t) :=
  array_filter (course_matches searchTerm) courses.


(** ** A small store to run the definitions on *)

(** Identities 1 and 2 are students, 9 is an administrator.  Course 10 is
    open and has two applications: a pending one of student 1, an approved
    one of student 2. *)
Definition sample_env : env := mkenv 1000%Z (fun n => (900 + N.of_nat n)%N).

Definition profile_of_1 : Profile.t :=
  Profile.mk 100 1 (Some "Ada") (Some "Achieng") None None 10%Z 10%Z.
Definition profile_of_2 : Profile.t :=
  Profile.mk 101 2 (Some "Ben") (Some "Barasa") None None 20%Z 20%Z.
Definition profile_of_9 : Profile.t :=
  Profile.mk 109 9 (Some "Root") None None None 5%Z 5%Z.

Definition course_10 : Course.t :=
  Course.mk 10 "Introduction to Programming"
    (Some "Learn the basics of programming with Python") (Some "12 weeks")
    true (Some 50%Z) 1%Z 1%Z.
Definition course_11 : Course.t :=
  Course.mk 11 "Database Management"
    (Some "Learn SQL and database design principles") (Some "10 weeks")
    false (Some 50%Z) 1%Z 1%Z.

Definition application_300 : Application.t :=
  Application.mk 300 1 10 "pending" 500%Z 500%Z.
Definition application_301 : Application.t :=
  Application.mk 301 2 10 "approved" 510%Z 520%Z.

Definition sample_db : db :=
  mkdb [1; 2; 9]%N
       [profile_of_1; profile_of_2; profile_of_9]
       [UserRole.mk 200 1 student 10%Z; UserRole.mk 201 2 student 20%Z;
        UserRole.mk 209 9 student 5%Z; UserRole.mk 210 9 admin 6%Z]
       [course_10; course_11]
       [application_300; application_301].

(** The sample store after student 1 saved the profile form, after the
    administrator opened course 11, and after the administrator approved
    application 300, each at time 1000. *)
Definition sample_after_profile_save : db :=
  set_profiles sample_db
    [Profile.mk 100 1 (Some "Ada") (Some "Lovelace") None None 10 1000;
     profile_of_2; profile_of_9].

Definition sample_after_course_save : db :=
  set_courses sample_db
    [course_10;
     Course.mk 11 "Database Management"
       (Some "Learn SQL and database design principles") (Some "10 weeks")
       true (Some 50%Z) 1 1000].

Definition sample_after_approval : db :=
  set_course_applications sample_db
    [Application.mk 300 1 10 "approved" 500 1000; application_301].

(** A run of three actions at times 1001 to 1003: the administrator
    rejects application 301, then its student presses cancel on it, then
    applies to the same course again. *)
Definition sample_run : list action :=
  [ mkaction (mkenv 1001 (fun _ => 901%N)) (Some 9%N) (Reject 301);
    mkaction (mkenv 1002 (fun _ => 902%N)) (Some 2%N) (Cancel 301);
    mkaction (mkenv 1003 (fun _ => 903%N)) (Some 2%N) (ApplyNow course_10) ].

(** A course the schema accepts: [description] is NULL.  The sample store
    once the administrator has inserted it. *)
Definition course_without_description : Course.t :=
  Course.mk 12 "Mobile App Development" None (Some "20 weeks")
    true (Some 50%Z) 2%Z 2%Z.

Definition sample_with_undescribed_course : db :=
  set_courses sample_db (courses sample_db ++ [course_without_description]).

(** ** The constraints of the schema, on a whole store *)

(** Primary key and [UNIQUE(user_id, role)] of [user_roles]. *)
Definition user_roles_unique (rows : list UserRole.t) : bool :=
  distinctb N.eqb (map UserRole.id rows) && distinctb same_assignment rows.

(** Every key, unique and check constraint and every foreign key the
    migration declares holds in the store; [auth.users] has its own primary
    key. *)
Definition constraints_hold (d : db) : bool :=
  distinctb N.eqb (users d)
  && profiles_unique (profiles d)
  && forallb (fun p => mem (Profile.user_id p) (users d)) (profiles d)
  && user_roles_unique (user_roles d)
  && forallb (fun r => mem (UserRole.user_id r) (users d)) (user_roles d)
  && distinctb N.eqb (map Course.id (courses d))
  && applications_unique (course_applications d)
  && forallb (application_row_ok d) (course_applications d).

(** ** Statements on user_roles *)

(** The columns of an [INSERT INTO user_roles]; [role] defaults to
    'student'. *)
Module NewUserRole.
Record t := mk
  { id : option uuid;
    user_id : uuid;
    role : option app_role;
    created_at : option timestamp }.
End NewUserRole.

Definition new_user_role_row (e : env) (n : NewUserRole.t) : UserRole.t :=
  UserRole.mk
    (default (gen_random_uuid e 0) (NewUserRole.id n))
    (NewUserRole.user_id n)
    (default student (NewUserRole.role n))
    (default (now e) (NewUserRole.created_at n)).

Definition insert_user_role (e : env) (c : caller) (n : NewUserRole.t) (d : db)
  : result db :=
  let r := new_user_role_row e n in
  _ <- guard (check_ok user_roles_policies d c INSERT r) PolicyDenied ;;
  _ <- guard (negb (mem (UserRole.id r) (map UserRole.id (user_roles d)))
              && negb (existsb (same_assignment r) (user_roles d))
              && mem (UserRole.user_id r) (users d))
             ConstraintViolation ;;
  Ok (set_user_roles d (user_roles d ++ [r])).

Module UserRolePatch.
Record t := mk
  { id : option uuid;
    user_id : option uuid;
    role : option app_role;
    created_at : option timestamp }.
End UserRolePatch.

Definition patch_user_role (p : UserRolePatch.t) (r : UserRole.t)
  : UserRole.t :=
  UserRole.mk
    (default (UserRole.id r) (UserRolePatch.id p))
    (default (UserRole.user_id r) (UserRolePatch.user_id p))
    (default (UserRole.role r) (UserRolePatch.role p))
    (default (UserRole.created_at r) (UserRolePatch.created_at p)).

(** [UPDATE user_roles SET ... WHERE flt]; the table has no trigger. *)
Definition update_user_roles
  (c : caller) (flt : UserRole.t -> bool) (p : UserRolePatch.t) (d : db)
  : result db :=
  let hit := targets user_roles_policies d c UPDATE flt in
  let new := patch_user_role p in
  let rows := user_roles d in
  _ <- guard (forallb (fun r => implb (hit r)
                 (check_ok user_roles_policies d c UPDATE (new r)
                  && using_ok user_roles_policies d c SELECT (new r)))
               rows)
             PolicyDenied ;;
  let rows' := map (fun r => if hit r then new r else r) rows in
  _ <- guard (forallb (fun r => implb (hit r)
                                  (mem (UserRole.user_id (new r)) (users d)))
                      rows
              && user_roles_unique rows')
             ConstraintViolation ;;
  Ok (set_user_roles d rows').

Definition delete_user_roles (c : caller) (flt : UserRole.t -> bool) (d : db)
  : result db :=
  let hit := targets user_roles_policies d c DELETE flt in
  Ok (set_user_roles d (filter (fun r => negb (hit r)) (user_roles d))).

(** [supabase.from('user_roles').select(...)] *)
Definition select_user_roles (d : db) (c : caller) : list UserRole.t :=
  rls_select user_roles_policies d c (user_roles d).

(** ** What the pages fetch *)

(** [Index.fetchUserApplications]:
    [.from('course_applications').select('course_id').eq('student_id',
    user.id)], mapped to the course ids; without a user the list stays
    empty. *)
Definition fetchUserApplications (d : db) (user : caller) : list uuid :=
  match user with
  | None => []
  | Some uid =>
      map Application.course_id
        (filter (fun a => N.eqb (Application.student_id a) uid)
                (select_course_applications d user))
  end.

(** [Index]: [isApplied={appliedCourses.includes(course.id)}] *)
Definition isApplied (appliedCourses : list uuid) (course : Course.t) : bool :=
  mem (Course.id course) appliedCourses.

(** [StudentDashboard.fetchProfile]:
    [.from('profiles').select('first_name, last_name, phone')
     .eq('user_id', user?.id).single()].  [single()] reports an error unless
    exactly one row comes back; the form state is set only without an error
    ([None]: the state is left as it is). *)
Definition fetchProfile (d : db) (user : caller) : option profile_form :=
  match user with
  | None => None
  | Some uid =>
      match filter (fun p => N.eqb (Profile.user_id p) uid)
                   (select_profiles d user) with
      | [p] => Some (mkform (Profile.first_name p) (Profile.last_name p)
                       (Profile.phone p))
      | _ => None
      end
  end.

(** The course data a dashboard embeds in an application:
    [courses ( name, description, duration )]. *)
Record course_summary := mksummary
  { summary_name : string;
    summary_description : option string;
    summary_duration : option string }.

(** An entry of [StudentDashboard]'s [applications]. *)
Record application_entry := mkentry
  { entry_id : uuid;
    entry_status : string;
    entry_applied_at : timestamp;
    entry_courses : option course_summary }.

(** The embedded course of an application row: the row of [courses] its
    [course_id] points at, read under the caller's [SELECT] policies; null
    when the caller does not see that course. *)
Definition embedded_course (d : db) (user : caller) (course_id : uuid)
  : option course_summary :=
  option_map
    (fun c => mksummary (Course.name c) (Course.description c)
                (Course.duration c))
    (find (fun c => N.eqb (Course.id c) course_id) (select_courses d user)).

(** [StudentDashboard.fetchApplications]:
    [.from('course_applications').select(`id, status, applied_at,
    courses ( name, description, duration )`).eq('student_id', user?.id)].
    The entries are kept in table order (the [ORDER BY applied_at DESC] is
    left out); without a user the request fails and the list stays empty. *)
Definition fetchApplications (d : db) (user : caller)
  : list application_entry :=
  match user with
  | None => []
  | Some uid =>
      map (fun a => mkentry (Application.id a) (Application.status a)
                      (Application.applied_at a)
                      (embedded_course d user (Application.course_id a)))
          (filter (fun a => N.eqb (Application.student_id a) uid)
                  (select_course_applications d user))
  end.

(** [<CardTitle>{application.courses.name}</CardTitle>] *)
Definition card_title (application : application_entry) : completion string :=
  match entry_courses application with
  | Some courses => Normal (summary_name courses)
  | None => TypeError
  end.

(** * Properties *)

(** ** Lists and the result monad *)

Lemma filter_all {A} (f : A -> bool) (l : list A) :
  (forall x, In x l -> f x = true) -> filter f l = l.
Proof.
  induction l as [|x l IH]; intros H; simpl; [reflexivity|].
  rewrite (H x (or_introl eq_refl)), IH; [reflexivity|].
  intros y Hy. apply H. now right.
Qed.

(** A column the rewriting keeps reads the same before and after. *)
Lemma map_rewritten_key {A B} (key : A -> B) (hit : A -> bool) (new : A -> A)
  (l : list A) :
  (forall r, key (new r) = key r) ->
  map key (map (fun r => if hit r then new r else r) l) = map key l.
Proof.
  intros H. rewrite map_map. apply map_ext. intros r.
  destruct (hit r); auto.
Qed.

Lemma guard_ok (b : bool) (e : error) (u : unit) :
  guard b e = Ok u -> b = true.
Proof. destruct b; simpl; [reflexivity | discriminate]. Qed.

Lemma bind_ok {A B} (m : result A) (k : A -> result B) (b : B) :
  bind m k = Ok b -> exists a, m = Ok a /\ k a = Ok b.
Proof. destruct m as [a|e]; simpl; [eauto | discriminate]. Qed.

(** ** What the policies amount to, table by table and command by command *)

Lemma courses_select_using d c r :
  using_ok courses_policies d c SELECT r
  = Course.availability r || has_role d c admin.
Proof.
  unfold using_ok, courses_policies, applies, eval_using; simpl.
  destruct (Course.availability r), (has_role d c admin); reflexivity.
Qed.

Lemma applications_select_using d c a :
  using_ok course_applications_policies d c SELECT a
  = uid_is c (Application.student_id a) || has_role d c admin.
Proof.
  unfold using_ok, course_applications_policies, applies, eval_using; simpl.
  destruct (uid_is c (Application.student_id a)), (has_role d c admin);
    reflexivity.
Qed.

Lemma anonymous_has_no_role d r : has_role d None r = false.
Proof.
  unfold has_role. induction (user_roles d) as [|x l IH]; simpl; auto.
Qed.

(** C4. A caller who holds the admin role reads every course; any other
    caller reads exactly the courses whose [availability] is true, and the
    anonymous caller is such a caller. *)
Theorem course_read_visibility (d : db) (c : caller) :
  select_courses d c
  = (if has_role d c admin then courses d
     else filter Course.availability (courses d))
  /\ has_role d None admin = false.
Proof.
  split; [|apply anonymous_has_no_role].
  unfold select_courses, rls_select.
  destruct (has_role d c admin) eqn:Hadm.
  - apply filter_all. intros r _.
    rewrite courses_select_using, Hadm. apply orb_true_r.
  - apply filter_ext. intros r.
    rewrite courses_select_using, Hadm. apply orb_false_r.
Qed.

(** C5. A caller who holds the admin role reads every application; any other
    caller reads exactly the applications whose [student_id] is the caller's
    identity. *)
Theorem application_read_visibility (d : db) (c : caller) :
  select_course_applications d c
  = (if has_role d c admin then course_applications d
     else filter (fun a => uid_is c (Application.student_id a))
                 (course_applications d)).
Proof.
  unfold select_course_applications, rls_select.
  destruct (has_role d c admin) eqn:Hadm.
  - apply filter_all. intros r _.
    rewrite applications_select_using, Hadm. apply orb_true_r.
  - apply filter_ext. intros r.
    rewrite applications_select_using, Hadm. apply orb_false_r.
Qed.

Lemma applications_delete_using d c a :
  using_ok course_applications_policies d c DELETE a = has_role d c admin.
Proof.
  unfold using_ok, course_applications_policies, applies, eval_using; simpl.
  destruct (has_role d c admin); reflexivity.
Qed.

Lemma set_course_applications_same d :
  set_course_applications d (course_applications d) = d.
Proof. destruct d; reflexivity. Qed.

(** A [DELETE FROM course_applications] of a caller without the admin role
    goes through and removes nothing, whatever the filter and whoever owns
    the rows: no policy of the table admits such a caller for [DELETE]. *)
Lemma delete_by_non_admin_removes_nothing d c flt :
  has_role d c admin = false ->
  delete_course_applications c flt d = Ok d.
Proof.
  intros Hadm. unfold delete_course_applications.
  rewrite filter_all; [now rewrite set_course_applications_same|].
  intros a _. unfold targets.
  rewrite applications_delete_using, Hadm, andb_false_r. reflexivity.
Qed.

(** C1. Student 1 owns the pending application 300 and does not hold the
    admin role; the student cancels it.  The store is what it was, the row
    included, and the dashboard reports "Application Cancelled" without an
    error. *)
Theorem cancel_own_pending_application_keeps_row :
  In application_300 (course_applications sample_db)
  /\ Application.student_id application_300 = 1%N
  /\ Application.status application_300 = "pending"
  /\ has_role sample_db (Some 1%N) admin = false
  /\ store (cancelApplication (Some 1%N) 300 sample_db) = sample_db
  /\ toast_title (cancelApplication (Some 1%N) 300 sample_db)
     = "Application Cancelled"
  /\ toast_error (cancelApplication (Some 1%N) 300 sample_db) = None.
Proof.
  assert (H : has_role sample_db (Some 1%N) admin = false) by reflexivity.
  unfold cancelApplication.
  rewrite (delete_by_non_admin_removes_nothing _ _ _ H). simpl.
  repeat split; auto.
Qed.

(** ** Profiles: who can update a row *)

Lemma profiles_update_using d c r :
  using_ok profiles_policies d c UPDATE r = uid_is c (Profile.user_id r).
Proof.
  unfold using_ok, profiles_policies, applies, eval_using; simpl.
  destruct (uid_is c (Profile.user_id r)); reflexivity.
Qed.

Lemma profiles_update_check d c r :
  check_ok profiles_policies d c UPDATE r = uid_is c (Profile.user_id r).
Proof.
  unfold check_ok, profiles_policies, applies, eval_with_check, eval_using;
    simpl.
  destruct (uid_is c (Profile.user_id r)); reflexivity.
Qed.

Lemma profiles_select_using d c r :
  using_ok profiles_policies d c SELECT r
  = uid_is c (Profile.user_id r) || has_role d c admin.
Proof.
  unfold using_ok, profiles_policies, applies, eval_using; simpl.
  destruct (uid_is c (Profile.user_id r)), (has_role d c admin); reflexivity.
Qed.

(** The rows an [UPDATE profiles] rewrites are the rows of the caller that
    the filter selects: holding the admin role adds nothing. *)
Lemma update_profile_targets_own d c flt r :
  update_profile_targets d c flt r = flt r && uid_is c (Profile.user_id r).
Proof.
  unfold update_profile_targets, targets.
  rewrite profiles_update_using, profiles_select_using.
  destruct (flt r), (uid_is c (Profile.user_id r)), (has_role d c admin);
    reflexivity.
Qed.

Lemma update_profiles_ok e c flt p d d' :
  update_profiles e c flt p d = Ok d' ->
  d' = set_profiles d
         (map (fun r => if update_profile_targets d c flt r
                        then updated_profile e p r else r) (profiles d)).
Proof.
  unfold update_profiles. intros H.
  apply bind_ok in H as [[] [_ H]]. apply bind_ok in H as [[] [_ H]].
  now inversion H.
Qed.

Lemma uid_is_self u : uid_is (Some u) u = true.
Proof. apply N.eqb_refl. Qed.

Lemma updateProfile_by_owner e uid profile d :
  mem uid (users d) = true ->
  profiles_unique (profiles d) = true ->
  updateProfile e (Some uid) profile d
  = mkoutcome
      (set_profiles d
         (map (fun r => if N.eqb (Profile.user_id r) uid
                        then saved_profile e profile r else r) (profiles d)))
      "Profile Updated" None.
Proof.
  intros Hu Huniq. unfold updateProfile, update_profiles.
  set (flt := fun r => N.eqb (Profile.user_id r) uid).
  set (p := ProfilePatch.mk _ _ _ _ _ _ _ _).
  assert (Hhit : forall r, update_profile_targets d (Some uid) flt r = flt r).
  { intros r. rewrite update_profile_targets_own. unfold flt, uid_is.
    rewrite (N.eqb_sym uid). apply andb_diag. }
  assert (Hnew : forall r, flt r = true ->
                           Profile.user_id (updated_profile e p r) = uid).
  { intros r Hr. apply N.eqb_eq in Hr. exact Hr. }
  assert (G1 : forallb (fun r => implb (update_profile_targets d (Some uid) flt r)
                 (check_ok profiles_policies d (Some uid) UPDATE
                    (updated_profile e p r)
                  && using_ok profiles_policies d (Some uid) SELECT
                       (updated_profile e p r))) (profiles d) = true).
  { apply forallb_forall. intros r _. rewrite Hhit.
    destruct (flt r) eqn:Hr; [|reflexivity]. cbn [implb].
    rewrite profiles_update_check, profiles_select_using, (Hnew r Hr).
    now rewrite uid_is_self. }
  assert (G2 : forallb (fun r => implb (update_profile_targets d (Some uid) flt r)
                 (mem (Profile.user_id (updated_profile e p r)) (users d)))
                 (profiles d) = true).
  { apply forallb_forall. intros r _. rewrite Hhit.
    destruct (flt r) eqn:Hr; [|reflexivity]. cbn [implb].
    now rewrite (Hnew r Hr). }
  assert (G3 : profiles_unique
                 (map (fun r => if update_profile_targets d (Some uid) flt r
                                then updated_profile e p r else r)
                      (profiles d)) = true).
  { unfold profiles_unique.
    rewrite (map_rewritten_key Profile.id), (map_rewritten_key Profile.user_id);
      auto. }
  cbv zeta. rewrite G1. cbn [guard bind]. rewrite G2, G3.
  cbn [andb guard bind report]. f_equal. f_equal.
  apply map_ext. intros r. rewrite Hhit. unfold flt.
  destruct (N.eqb (Profile.user_id r) uid); reflexivity.
Qed.

(** C2, as the policies have it.  An [UPDATE profiles] that goes through
    rewrites exactly the rows the filter selects among the caller's own; a
    row of another identity stays as it is for every caller, one who holds
    the admin role included, and no other table changes.  The owner saving
    the profile form gets the three columns stored and the timestamp
    refreshed, provided the identity exists and the table meets its keys. *)
Theorem profile_update_by_owner_only :
  (forall e c flt p d d',
      update_profiles e c flt p d = Ok d' ->
      profiles d'
      = map (fun r => if flt r && uid_is c (Profile.user_id r)
                      then updated_profile e p r else r) (profiles d)
      /\ users d' = users d /\ user_roles d' = user_roles d
      /\ courses d' = courses d
      /\ course_applications d' = course_applications d)
  /\ (forall e uid profile d,
         mem uid (users d) = true ->
         profiles_unique (profiles d) = true ->
         toast_error (updateProfile e (Some uid) profile d) = None
         /\ profiles (store (updateProfile e (Some uid) profile d))
            = map (fun r => if N.eqb (Profile.user_id r) uid
                            then saved_profile e profile r else r)
                  (profiles d)).
Proof.
  split.
  - intros e c flt p d d' H. apply update_profiles_ok in H. subst d'.
    simpl. repeat split; auto.
    apply map_ext. intros r. now rewrite update_profile_targets_own.
  - intros e uid profile d Hu Hk.
    rewrite (updateProfile_by_owner e uid profile d Hu Hk). simpl. auto.
Qed.

Lemma profile_update_by_owner_only_witness :
  (update_profiles sample_env (Some 9%N)
     (fun r => N.eqb (Profile.user_id r) 1)
     (ProfilePatch.mk None None (Some (Some "Eve")) None None None None None)
     sample_db = Ok sample_db
   /\ users sample_db = users sample_db)
  /\ (mem 1 (users sample_db) = true
      /\ profiles_unique (profiles sample_db) = true
      /\ toast_error (updateProfile sample_env (Some 1%N)
                        (mkform (Some "Ada") (Some "Lovelace") None)
                        sample_db) = None).
Proof.
  split.
  - split; [reflexivity|].
    exact (proj1 (proj2 (proj1 profile_update_by_owner_only
                           sample_env (Some 9%N)
                           (fun r => N.eqb (Profile.user_id r) 1)
                           (ProfilePatch.mk None None (Some (Some "Eve")) None
                              None None None None)
                           sample_db sample_db eq_refl))).
  - split; [reflexivity|]. split; [reflexivity|].
    exact (proj1 (proj2 profile_update_by_owner_only
                    sample_env 1%N
                    (mkform (Some "Ada") (Some "Lovelace") None)
                    sample_db eq_refl eq_refl)).
Defined.

(** C2 with "or holds the admin role" fails: identity 9 holds the admin role and
    does not own the profile of identity 1; its update of that profile goes
    through and changes nothing, although the new values differ from the
    stored ones. *)
Lemma admin_update_of_foreign_profile_changes_nothing :
  has_role sample_db (Some 9%N) admin = true
  /\ In profile_of_1 (profiles sample_db)
  /\ uid_is (Some 9%N) (Profile.user_id profile_of_1) = false
  /\ update_profiles sample_env (Some 9%N)
       (fun r => N.eqb (Profile.user_id r) 1)
       (ProfilePatch.mk None None (Some (Some "Eve")) None None None None None)
       sample_db = Ok sample_db
  /\ updated_profile sample_env
       (ProfilePatch.mk None None (Some (Some "Eve")) None None None None None)
       profile_of_1 <> profile_of_1.
Proof.
  repeat split; try reflexivity.
  - simpl. auto.
  - discriminate.
Qed.

(** ** What a statement that went through did *)

Lemma insert_course_application_ok e c n d d' :
  insert_course_application e c n d = Ok d' ->
  check_ok course_applications_policies d c INSERT (new_application_row e n)
  = true
  /\ application_row_ok d (new_application_row e n) = true
  /\ application_is_new (course_applications d) (new_application_row e n)
     = true
  /\ d' = set_course_applications d
            (course_applications d ++ [new_application_row e n]).
Proof.
  unfold insert_course_application. intros H.
  apply bind_ok in H as [[] [G1 H]]. apply bind_ok in H as [[] [G2 H]].
  apply guard_ok in G1, G2. apply andb_true_iff in G2 as [G2 G3].
  inversion H. auto.
Qed.

Lemma update_course_applications_ok e c flt p d d' :
  update_course_applications e c flt p d = Ok d' ->
  applications_unique
    (map (fun r => if update_application_targets d c flt r
                   then updated_application e p r else r)
         (course_applications d)) = true
  /\ d' = set_course_applications d
            (map (fun r => if update_application_targets d c flt r
                           then updated_application e p r else r)
                 (course_applications d)).
Proof.
  unfold update_course_applications. intros H.
  apply bind_ok in H as [[] [_ H]]. apply bind_ok in H as [[] [G2 H]].
  apply guard_ok in G2. apply andb_true_iff in G2 as [_ G2].
  inversion H. auto.
Qed.

Lemma insert_course_ok e c n d d' :
  insert_course e c n d = Ok d' ->
  d' = set_courses d (courses d ++ [new_course_row e n]).
Proof.
  unfold insert_course. intros H.
  apply bind_ok in H as [[] [_ H]]. apply bind_ok in H as [[] [_ H]].
  now inversion H.
Qed.

Lemma update_courses_ok e c flt p d d' :
  update_courses e c flt p d = Ok d' ->
  d' = set_courses d
         (map (fun r => if update_course_targets d c flt r
                        then updated_course e p r else r) (courses d)).
Proof.
  unfold update_courses. intros H.
  apply bind_ok in H as [[] [_ H]]. apply bind_ok in H as [[] [_ H]].
  now inversion H.
Qed.

Lemma create_user_ok e u d d' :
  create_user e u d = Ok d' ->
  mem (auth_id u) (users d) = false
  /\ mem (Profile.user_id
            (Profile.mk (gen_random_uuid e 0) (auth_id u) (meta_first_name u)
               (meta_last_name u) None None (now e) (now e)))
         (map Profile.user_id (profiles d)) = false
  /\ existsb (same_assignment
                (UserRole.mk (gen_random_uuid e 1) (auth_id u) student (now e)))
             (user_roles d) = false
  /\ d' = mkdb (users d ++ [auth_id u])
            (profiles d
             ++ [Profile.mk (gen_random_uuid e 0) (auth_id u)
                   (meta_first_name u) (meta_last_name u) None None
                   (now e) (now e)])
            (user_roles d
             ++ [UserRole.mk (gen_random_uuid e 1) (auth_id u) student (now e)])
            (courses d) (course_applications d).
Proof.
  unfold create_user, handle_new_user, definer_insert_profile,
    definer_insert_user_role.
  intros H.
  apply bind_ok in H as [[] [G0 H]].
  apply bind_ok in H as [d1 [H1 H]].
  apply bind_ok in H1 as [[] [G1 H1]].
  apply bind_ok in H as [d2 [H2 H]].
  apply bind_ok in H2 as [[] [G2 H2]].
  apply guard_ok in G0, G1, G2.
  apply negb_true_iff in G0.
  apply andb_true_iff in G1 as [G1 _]. apply andb_true_iff in G1 as [_ G1].
  apply negb_true_iff in G1.
  apply andb_true_iff in G2 as [G2 _]. apply andb_true_iff in G2 as [_ G2].
  apply negb_true_iff in G2.
  inversion H1; subst d1. inversion H2; subst d2. inversion H; subst d'.
  simpl in *. auto.
Qed.

(** ** One application per student and course *)

Lemma pair_eqb_eq (a b : uuid * uuid) : pair_eqb a b = true <-> a = b.
Proof.
  destruct a as [a1 a2], b as [b1 b2]. unfold pair_eqb. simpl.
  rewrite andb_true_iff, !N.eqb_eq. split.
  - intros [-> ->]. reflexivity.
  - intros H. inversion H. auto.
Qed.

Lemma existsb_In {A} (eqb : A -> A -> bool) (x : A) (l : list A) :
  (forall a b, eqb a b = true <-> a = b) ->
  existsb (eqb x) l = true <-> In x l.
Proof.
  intros Heq. rewrite existsb_exists. split.
  - intros [y [Hy E]]. apply Heq in E. now subst.
  - intros H. exists x. split; [exact H | now apply Heq].
Qed.

Lemma distinctb_NoDup {A} (eqb : A -> A -> bool) (l : list A) :
  (forall a b, eqb a b = true <-> a = b) ->
  distinctb eqb l = true -> NoDup l.
Proof.
  intros Heq. induction l as [|x l IH]; simpl; intros H; constructor.
  - apply andb_true_iff in H as [H _]. apply negb_true_iff in H.
    intros Hin. apply (existsb_In eqb x l Heq) in Hin. congruence.
  - apply IH. now apply andb_true_iff in H as [_ H].
Qed.

Lemma NoDup_map_filter {A B} (key : A -> B) (keep : A -> bool) (l : list A) :
  NoDup (map key l) -> NoDup (map key (filter keep l)).
Proof.
  induction l as [|x l IH]; simpl; intros H; [constructor|].
  inversion H as [|? ? Hx Hl]; subst.
  destruct (keep x); simpl; [constructor|]; auto.
  intros Hin. apply Hx. apply in_map_iff in Hin as [y [E Hy]].
  apply filter_In in Hy as [Hy _]. apply in_map_iff. eauto.
Qed.

Lemma NoDup_snoc {A} (l : list A) (x : A) :
  NoDup l -> ~ In x l -> NoDup (l ++ [x]).
Proof.
  intros Hl Hx. induction l as [|y l IH]; simpl.
  - constructor; [intros []|constructor].
  - inversion Hl; subst. constructor.
    + rewrite in_app_iff. intros [H|[H|[]]]; [auto|].
      subst. apply Hx. now left.
    + apply IH; auto. intros H. apply Hx. now right.
Qed.

(** With distinct keys at most one row carries a given key. *)
Lemma at_most_one_per_key {A B} (key : A -> B) (is_k : A -> bool) (k : B)
  (l : list A) :
  (forall a, is_k a = true -> key a = k) ->
  NoDup (map key l) -> List.length (filter is_k l) <= 1.
Proof.
  intros Hk. induction l as [|x l IH]; simpl; intros H; [lia|].
  inversion H as [|? ? Hx Hl]; subst.
  destruct (is_k x) eqn:Ex; [|auto].
  simpl. assert (filter is_k l = []) as ->; [|simpl; lia].
  destruct (filter is_k l) as [|y t] eqn:Ef; [reflexivity|].
  exfalso. apply Hx.
  assert (Hy : In y (filter is_k l)) by (rewrite Ef; now left).
  apply filter_In in Hy as [Hy Ey].
  rewrite (Hk x Ex), <- (Hk y Ey). now apply in_map.
Qed.

Lemma exec_keeps_keys_distinct e c q d d' :
  exec e c q d = Ok d' ->
  NoDup (map application_key (course_applications d)) ->
  NoDup (map application_key (course_applications d')).
Proof.
  destruct q; simpl; intros H Hd.
  - apply insert_course_application_ok in H as (_ & _ & Hnew & ->). simpl.
    rewrite map_app. simpl. apply NoDup_snoc; [exact Hd|].
    apply andb_true_iff in Hnew as [_ Hnew]. apply negb_true_iff in Hnew.
    intros Hin. apply (existsb_In pair_eqb _ _ pair_eqb_eq) in Hin. congruence.
  - apply update_course_applications_ok in H as (Hu & ->). simpl.
    apply andb_true_iff in Hu as [_ Hu].
    exact (distinctb_NoDup pair_eqb _ pair_eqb_eq Hu).
  - unfold delete_course_applications in H. inversion H; subst. simpl.
    now apply NoDup_map_filter.
  - apply insert_course_ok in H. subst. exact Hd.
  - apply update_courses_ok in H. subst. exact Hd.
  - unfold delete_courses in H. inversion H; subst. simpl.
    now apply NoDup_map_filter.
  - apply update_profiles_ok in H. subst. exact Hd.
Qed.

Lemma reachable_keys_distinct d :
  reachable d -> NoDup (map application_key (course_applications d)).
Proof.
  induction 1 as [d H | d e c q d' _ IH H | d e u d' _ IH H | d u _ IH
                  | d d' _ IH H].
  - rewrite H. constructor.
  - exact (exec_keeps_keys_distinct _ _ _ _ _ H IH).
  - apply create_user_ok in H as (_ & _ & _ & ->). exact IH.
  - simpl. now apply NoDup_map_filter.
  - now rewrite H.
Qed.

Lemma applications_insert_check d c a :
  check_ok course_applications_policies d c INSERT a
  = uid_is c (Application.student_id a) || has_role d c admin.
Proof.
  unfold check_ok, course_applications_policies, applies, eval_with_check,
    eval_using; simpl.
  destruct (uid_is c (Application.student_id a)), (has_role d c admin);
    reflexivity.
Qed.

(** An insert for a (student, course) pair that is stored already is
    rejected: as a policy violation when the caller may not insert for that
    student, as a constraint violation otherwise. *)
Lemma insert_duplicate_application e c n d :
  (exists a, In a (course_applications d)
             /\ Application.student_id a = NewApplication.student_id n
             /\ Application.course_id a = NewApplication.course_id n) ->
  insert_course_application e c n d
  = Err (if uid_is c (NewApplication.student_id n) || has_role d c admin
         then ConstraintViolation else PolicyDenied).
Proof.
  intros (a & Ha & Hs & Hc). unfold insert_course_application.
  rewrite applications_insert_check. cbn [new_application_row Application.student_id].
  destruct (uid_is c (NewApplication.student_id n) || has_role d c admin);
    [|reflexivity].
  cbn [guard bind].
  assert (E : application_is_new (course_applications d)
                (new_application_row e n) = false).
  { unfold application_is_new. apply andb_false_iff. right.
    apply negb_false_iff.
    apply (existsb_In pair_eqb _ _ pair_eqb_eq).
    apply in_map_iff. exists a. split; [|exact Ha].
    unfold application_key. simpl. now rewrite Hs, Hc. }
  rewrite E, andb_false_r. reflexivity.
Qed.

(** C3. In every reachable store at most one application carries a given
    (student, course) pair.  When student S applies to a course S has an
    application for already, the insert fails with [ConstraintViolation] and
    the store stays as it is. *)
Theorem one_application_per_student_and_course :
  (forall d, reachable d ->
     forall S C,
       List.length
         (filter (fun a => N.eqb (Application.student_id a) S
                           && N.eqb (Application.course_id a) C)
                 (course_applications d)) <= 1)
  /\ (forall e S course d,
        (exists a, In a (course_applications d)
                   /\ Application.student_id a = S
                   /\ Application.course_id a = Course.id course) ->
        handleApply e (Some S) course d
        = mkoutcome d "Application Failed" (Some ConstraintViolation)).
Proof.
  split.
  - intros d Hd S C.
    apply (at_most_one_per_key application_key _ (S, C)).
    + intros a Ha. apply andb_true_iff in Ha as [Hs Hc].
      apply N.eqb_eq in Hs, Hc. unfold application_key. now subst.
    + now apply reachable_keys_distinct.
  - intros e S course d Hdup. unfold handleApply.
    rewrite insert_duplicate_application by exact Hdup.
    cbn [NewApplication.student_id]. rewrite uid_is_self. reflexivity.
Qed.

Lemma sample_db_reachable : reachable sample_db.
Proof.
  apply (reach_request
           (mkdb (users sample_db) (profiles sample_db) (user_roles sample_db)
                 (courses sample_db)
                 [application_300; Application.mk 301 2 10 "pending" 510 510])
           (mkenv 520 (fun _ => 0%N)) (Some 9%N)
           (UpdateApplications (fun a => N.eqb (Application.id a) 301)
              (ApplicationPatch.mk None None None (Some "approved") None None)));
    [|reflexivity].
  apply (reach_request
           (mkdb (users sample_db) (profiles sample_db) (user_roles sample_db)
                 (courses sample_db) [application_300])
           (mkenv 510 (fun _ => 301%N)) (Some 2%N)
           (InsertApplication (NewApplication.mk None 2 10 None None None)));
    [|reflexivity].
  apply (reach_request
           (mkdb (users sample_db) (profiles sample_db) (user_roles sample_db)
                 (courses sample_db) [])
           (mkenv 500 (fun _ => 300%N)) (Some 1%N)
           (InsertApplication (NewApplication.mk None 1 10 None None None)));
    [|reflexivity].
  apply reach_init. reflexivity.
Qed.

Lemma one_application_per_student_and_course_witness :
  List.length
    (filter (fun a => N.eqb (Application.student_id a) 1
                      && N.eqb (Application.course_id a) 10)
            (course_applications sample_db)) <= 1
  /\ handleApply sample_env (Some 1%N) course_10 sample_db
     = mkoutcome sample_db "Application Failed" (Some ConstraintViolation).
Proof.
  split.
  - exact (proj1 one_application_per_student_and_course
             sample_db sample_db_reachable 1%N 10%N).
  - apply (proj2 one_application_per_student_and_course).
    exists application_300. simpl. auto.
Defined.

(** ** Provisioning *)

Lemma filter_none {A} (f : A -> bool) (l : list A) :
  existsb f l = false -> filter f l = [].
Proof.
  induction l as [|x l IH]; simpl; [reflexivity|].
  intros H. apply orb_false_iff in H as [Hx Hl]. rewrite Hx. auto.
Qed.

Lemma existsb_same {A} (f g : A -> bool) (l : list A) :
  (forall x, f x = g x) -> existsb f l = existsb g l.
Proof.
  intros H. induction l as [|x l IH]; simpl; [reflexivity|].
  now rewrite H, IH.
Qed.

Lemma mem_map_existsb {A} (key : A -> uuid) (k : uuid) (l : list A) :
  mem k (map key l) = existsb (fun r => N.eqb (key r) k) l.
Proof.
  unfold mem. induction l as [|x l IH]; simpl; [reflexivity|].
  now rewrite IH, (N.eqb_sym k).
Qed.

(** C6. When the provider creates identity [u] and the statement goes
    through, the identity is stored together with exactly one profile of it
    and exactly one assignment of the student role to it; courses and
    applications are untouched.  When the profile insert or the role insert
    of the trigger fails, so does the creation, and a failed creation leaves
    the store as it was: no identity is stored without both rows. *)
Theorem provisioning_is_all_or_nothing (e : env) (u : auth_user) (d : db) :
  let with_identity := set_users d (users d ++ [auth_id u]) in
  let profile :=
    Profile.mk (gen_random_uuid e 0) (auth_id u) (meta_first_name u)
      (meta_last_name u) None None (now e) (now e) in
  let assignment :=
    UserRole.mk (gen_random_uuid e 1) (auth_id u) student (now e) in
  match create_user e u d with
  | Ok d' =>
      users d' = users d ++ [auth_id u]
      /\ profiles d' = profiles d ++ [profile]
      /\ user_roles d' = user_roles d ++ [assignment]
      /\ List.length
           (filter (fun p => N.eqb (Profile.user_id p) (auth_id u))
                   (profiles d')) = 1
      /\ List.length
           (filter (fun r => N.eqb (UserRole.user_id r) (auth_id u)
                             && app_role_eqb (UserRole.role r) student)
                   (user_roles d')) = 1
      /\ courses d' = courses d
      /\ course_applications d' = course_applications d
  | Err x => commit d (create_user e u d) = d
  end
  /\ (forall x, definer_insert_profile profile with_identity = Err x ->
                create_user e u d = Err x)
  /\ (forall d1 x, definer_insert_profile profile with_identity = Ok d1 ->
                   definer_insert_user_role assignment d1 = Err x ->
                   create_user e u d = Err x).
Proof.
  intros with_identity profile assignment. split; [|split].
  - destruct (create_user e u d) as [d'|x] eqn:H; [|reflexivity].
    apply create_user_ok in H as (_ & Hp & Hr & ->). simpl.
    repeat split; auto.
    + rewrite filter_app, filter_none.
      * simpl. now rewrite N.eqb_refl.
      * now rewrite <- mem_map_existsb.
    + rewrite filter_app, filter_none.
      * simpl. now rewrite N.eqb_refl.
      * rewrite <- Hr. apply existsb_same. intros r.
        unfold same_assignment. simpl.
        rewrite (N.eqb_sym (auth_id u)).
        now destruct (UserRole.role r).
  - intros x Hx. unfold create_user, handle_new_user.
    fold profile with_identity.
    assert (x = ConstraintViolation) as ->.
    { unfold definer_insert_profile in Hx.
      destruct (guard _ _) as [[]|y] eqn:G in Hx; [discriminate|].
      simpl in Hx. inversion Hx; subst.
      unfold guard in G. destruct (_ && _) in G; now inversion G. }
    destruct (negb (mem (auth_id u) (users d))); [|reflexivity].
    cbn [guard bind]. now rewrite Hx.
  - intros d1 x H1 Hx. unfold create_user, handle_new_user.
    fold profile with_identity assignment.
    assert (x = ConstraintViolation) as ->.
    { unfold definer_insert_user_role in Hx.
      destruct (guard _ _) as [[]|y] eqn:G in Hx; [discriminate|].
      simpl in Hx. inversion Hx; subst.
      unfold guard in G. destruct (_ && _) in G; now inversion G. }
    destruct (negb (mem (auth_id u) (users d))); [|reflexivity].
    cbn [guard bind]. rewrite H1. cbn [bind]. now rewrite Hx.
Qed.

Lemma provisioning_is_all_or_nothing_witness :
  List.length
    (filter (fun p => N.eqb (Profile.user_id p) 3)
            (profiles (commit sample_db
                         (create_user sample_env (mkuser 3 (Some "Cy") None)
                            sample_db)))) = 1
  /\ create_user (mkenv 1000 (fun _ => 100%N)) (mkuser 3 (Some "Cy") None)
       sample_db = Err ConstraintViolation
  /\ create_user (mkenv 1000 (fun n => match n with
                                       | O => 900%N
                                       | _ => 200%N
                                       end))
       (mkuser 3 (Some "Cy") None) sample_db = Err ConstraintViolation.
Proof.
  split; [|split].
  - exact (proj1 (proj2 (proj2 (proj2 (proj1
             (provisioning_is_all_or_nothing sample_env
                (mkuser 3 (Some "Cy") None) sample_db)))))).
  - exact (proj1 (proj2
             (provisioning_is_all_or_nothing (mkenv 1000 (fun _ => 100%N))
                (mkuser 3 (Some "Cy") None) sample_db))
             ConstraintViolation eq_refl).
  - exact (proj2 (proj2
             (provisioning_is_all_or_nothing
                (mkenv 1000 (fun n => match n with
                                      | O => 900%N
                                      | _ => 200%N
                                      end))
                (mkuser 3 (Some "Cy") None) sample_db))
             _ ConstraintViolation eq_refl eq_refl).
Defined.

(** ** The timestamp trigger *)

Lemma Forall2_rewritten {A} (hit : A -> bool) (new : A -> A) (P : A -> Prop)
  (l : list A) :
  (forall r, P (new r)) ->
  Forall2 (fun old r' => if hit old then r' = new old /\ P r' else r' = old)
          l (map (fun r => if hit r then new r else r) l).
Proof.
  intros HP. induction l as [|x l IH]; simpl; constructor; [|exact IH].
  destruct (hit x); auto.
Qed.

(** C7. An [UPDATE] on profiles, courses or applications that goes through
    stores, for every row it rewrites, the new values with [updated_at] set
    to the time of the statement; every other row of the table, and every
    row of the other tables, is exactly what it was. *)
Theorem updated_at_refreshed_by_update :
  (forall e c flt p d d',
      update_profiles e c flt p d = Ok d' ->
      Forall2 (fun old new =>
                 if update_profile_targets d c flt old
                 then new = updated_profile e p old
                      /\ Profile.updated_at new = now e
                 else new = old)
              (profiles d) (profiles d')
      /\ courses d' = courses d
      /\ course_applications d' = course_applications d)
  /\ (forall e c flt p d d',
         update_courses e c flt p d = Ok d' ->
         Forall2 (fun old new =>
                    if update_course_targets d c flt old
                    then new = updated_course e p old
                         /\ Course.updated_at new = now e
                    else new = old)
                 (courses d) (courses d')
         /\ profiles d' = profiles d
         /\ course_applications d' = course_applications d)
  /\ (forall e c flt p d d',
         update_course_applications e c flt p d = Ok d' ->
         Forall2 (fun old new =>
                    if update_application_targets d c flt old
                    then new = updated_application e p old
                         /\ Application.updated_at new = now e
                    else new = old)
                 (course_applications d) (course_applications d')
         /\ profiles d' = profiles d
         /\ courses d' = courses d).
Proof.
  repeat split.
  - apply update_profiles_ok in H. subst d'. simpl.
    now apply Forall2_rewritten.
  - apply update_profiles_ok in H. now subst d'.
  - apply update_profiles_ok in H. now subst d'.
  - apply update_courses_ok in H. subst d'. simpl.
    now apply Forall2_rewritten.
  - apply update_courses_ok in H. now subst d'.
  - apply update_courses_ok in H. now subst d'.
  - apply update_course_applications_ok in H as [_ ->]. simpl.
    now apply Forall2_rewritten.
  - apply update_course_applications_ok in H as [_ ->]. reflexivity.
  - apply update_course_applications_ok in H as [_ ->]. reflexivity.
Qed.

Lemma updated_at_refreshed_by_update_witness :
  courses sample_after_profile_save = courses sample_db
  /\ profiles sample_after_course_save = profiles sample_db
  /\ Forall2 (fun old new =>
                if update_application_targets sample_db (Some 9%N)
                     (fun a => N.eqb (Application.id a) 300) old
                then new = updated_application sample_env
                             (ApplicationPatch.mk None None None
                                (Some "approved") None None) old
                     /\ Application.updated_at new = now sample_env
                else new = old)
             (course_applications sample_db)
             (course_applications sample_after_approval).
Proof.
  split; [|split].
  - exact (proj1 (proj2
             (proj1 updated_at_refreshed_by_update
                sample_env (Some 1%N)
                (fun r => N.eqb (Profile.user_id r) 1)
                (ProfilePatch.mk None None (Some (Some "Ada"))
                   (Some (Some "Lovelace")) (Some None) None None None)
                sample_db sample_after_profile_save eq_refl))).
  - exact (proj1 (proj2
             (proj1 (proj2 updated_at_refreshed_by_update)
                sample_env (Some 9%N)
                (fun r => N.eqb (Course.id r) 11)
                (CoursePatch.mk None None None None (Some true) None None None)
                sample_db sample_after_course_save eq_refl))).
  - exact (proj1
             (proj2 (proj2 updated_at_refreshed_by_update)
                sample_env (Some 9%N)
                (fun a => N.eqb (Application.id a) 300)
                (ApplicationPatch.mk None None None (Some "approved") None None)
                sample_db sample_after_approval eq_refl)).
Defined.

(** ** Decided applications stay decided *)

Lemma store_report d r ok ko : store (report d r ok ko) = commit d r.
Proof. destruct r; reflexivity. Qed.

Lemma forallb_filter {A} (f keep : A -> bool) (l : list A) :
  forallb f l = true -> forallb f (filter keep l) = true.
Proof.
  rewrite !forallb_forall. intros H x Hx.
  apply filter_In in Hx as [Hx _]. auto.
Qed.

Lemma decided_rows x d :
  decided x d = forallb (decided_row x) (course_applications d).
Proof. reflexivity. Qed.

(** A row inserted while [x] is stored has another id. *)
Lemma new_row_is_not_x x rows a :
  mem x (map Application.id rows) = true ->
  application_is_new rows a = true ->
  decided_row x a = true.
Proof.
  intros Hx Hnew. apply andb_true_iff in Hnew as [Hid _].
  apply negb_true_iff in Hid. unfold decided_row.
  destruct (N.eqb (Application.id a) x) eqn:E; [|reflexivity].
  apply N.eqb_eq in E. congruence.
Qed.

(** What [updateApplicationStatus] with 'approved' or 'rejected' stores is
    decided, whatever the row was. *)
Lemma status_update_decides x e c flt d s :
  s = "approved" \/ s = "rejected" ->
  forallb (decided_row x) (course_applications d) = true ->
  forallb (decided_row x)
    (map (fun r => if update_application_targets d c flt r
                   then updated_application e
                          (ApplicationPatch.mk None None None (Some s) None
                             None) r
                   else r)
         (course_applications d)) = true.
Proof.
  intros Hs H. rewrite forallb_forall in *. intros a' Ha'.
  apply in_map_iff in Ha' as [a [<- Ha]].
  destruct (update_application_targets d c flt a); [|auto].
  unfold decided_row. simpl.
  destruct Hs as [-> | ->]; simpl;
    destruct (N.eqb (Application.id a) x); reflexivity.
Qed.

Lemma ws_step_keeps_decided x d a :
  present x d = true -> decided x d = true ->
  decided x (ws_step d a) = true.
Proof.
  intros Hx Hd. rewrite decided_rows in *.
  destruct a as [e user k]. unfold ws_step.
  cbn [act_env act_user act_control].
  destruct k; cbn [press].
  - (* ApplyNow *)
    unfold handleApply. destruct user as [uid|]; [|exact Hd].
    rewrite store_report.
    destruct (insert_course_application _ _ _ d) as [d'|] eqn:H; [|exact Hd].
    apply insert_course_application_ok in H as (_ & _ & Hnew & ->). simpl.
    rewrite forallb_app, Hd. simpl.
    now rewrite (new_row_is_not_x x _ _ Hx Hnew).
  - (* SaveProfile *)
    unfold updateProfile. rewrite store_report.
    destruct user as [uid|]; [|exact Hd].
    destruct (update_profiles _ _ _ _ d) as [d'|] eqn:H; [|exact Hd].
    apply update_profiles_ok in H. now subst.
  - (* Cancel *)
    unfold cancelApplication, delete_course_applications.
    rewrite store_report. simpl. now apply forallb_filter.
  - (* AddCourse *)
    unfold createCourse. rewrite store_report.
    destruct (insert_course _ _ _ d) as [d'|] eqn:H; [|exact Hd].
    apply insert_course_ok in H. now subst.
  - (* SaveCourse *)
    unfold updateCourse. rewrite store_report.
    destruct (update_courses _ _ _ _ d) as [d'|] eqn:H; [|exact Hd].
    apply update_courses_ok in H. now subst.
  - (* RemoveCourse *)
    unfold deleteCourse, delete_courses. rewrite store_report. simpl.
    now apply forallb_filter.
  - (* Approve *)
    unfold updateApplicationStatus. rewrite store_report.
    destruct (update_course_applications _ _ _ _ d) as [d'|] eqn:H;
      [|exact Hd].
    apply update_course_applications_ok in H as [_ ->]. simpl.
    apply status_update_decides; auto.
  - (* Reject *)
    unfold updateApplicationStatus. rewrite store_report.
    destruct (update_course_applications _ _ _ _ d) as [d'|] eqn:H;
      [|exact Hd].
    apply update_course_applications_ok in H as [_ ->]. simpl.
    apply status_update_decides; auto.
Qed.

Lemma ws_run_keeps_decided x l :
  forall d, decided x d = true -> kept_along x l d = true ->
            decided x (ws_run l d) = true.
Proof.
  induction l as [|a l IH]; intros d Hd Hk; simpl in *; [exact Hd|].
  apply andb_true_iff in Hk as [Hx Hk].
  apply IH; [|exact Hk]. now apply ws_step_keeps_decided.
Qed.

Lemma decided_not_pending x d : decided x d = true -> not_pending x d = true.
Proof.
  unfold decided, not_pending. rewrite !forallb_forall.
  intros H a Ha. specialize (H a Ha). unfold decided_row in H.
  destruct (N.eqb (Application.id a) x); [|reflexivity]. simpl in *.
  apply orb_true_iff in H as [H|H]; apply String.eqb_eq in H; now rewrite H.
Qed.

(** C8. The dashboards render the cancel control, and the approve and reject
    controls, only for the cards whose status reads 'pending'.  Along every
    run of workspace actions, by any callers, an application that is
    approved or rejected and stays in the store is approved or rejected
    after the run: none of the controls writes 'pending' onto it. *)
Theorem decided_application_never_pending_again :
  (forall applications k,
      In k (student_controls applications)
      \/ In k (admin_controls applications) ->
      exists card,
        In card applications
        /\ card_status card = "pending"
        /\ (k = Cancel (card_id card) \/ k = Approve (card_id card)
            \/ k = Reject (card_id card)))
  /\ (forall x l d,
         decided x d = true -> kept_along x l d = true ->
         decided x (ws_run l d) = true
         /\ not_pending x (ws_run l d) = true).
Proof.
  split.
  - intros applications k [H|H]; apply in_flat_map in H as [card [Hc Hk]];
      exists card; (split; [exact Hc|]);
      destruct (String.eqb (card_status card) "pending") eqn:E;
      try contradiction; apply String.eqb_eq in E; (split; [exact E|]);
      simpl in Hk; intuition auto.
  - intros x l d Hd Hk.
    pose proof (ws_run_keeps_decided x l d Hd Hk) as H.
    split; [exact H | now apply decided_not_pending].
Qed.

Lemma decided_application_never_pending_again_witness :
  (exists card,
      In card [mkcard 300 "pending"; mkcard 301 "approved"]
      /\ card_status card = "pending"
      /\ (Approve 300 = Cancel (card_id card)
          \/ Approve 300 = Approve (card_id card)
          \/ Approve 300 = Reject (card_id card)))
  /\ decided 301 (ws_run sample_run sample_db) = true
  /\ not_pending 301 (ws_run sample_run sample_db) = true.
Proof.
  split.
  - apply (proj1 decided_application_never_pending_again).
    right. simpl. auto.
  - apply (proj2 decided_application_never_pending_again); reflexivity.
Defined.

(** ** The catalogue filter *)

Example includes_finds_inner_text :
  includes (toLowerCase "Introduction to Programming") (toLowerCase "PROG")
  = true.
Proof. reflexivity. Qed.

Example filter_keeps_matching_courses :
  filteredCourses [course_10; course_11] "sql" = Normal [course_11].
Proof. reflexivity. Qed.

Example filter_with_empty_term_never_reads_description :
  filteredCourses [course_without_description] EmptyString
  = Normal [course_without_description].
Proof. reflexivity. Qed.

Lemma toLowerCase_length s :
  String.length (toLowerCase s) = String.length s.
Proof. induction s as [|a s IH]; simpl; congruence. Qed.

Lemma length_append (s t : string) :
  String.length (s ++ t)%string = String.length s + String.length t.
Proof. induction s as [|a s IH]; simpl; congruence. Qed.

Lemma prefix_append t s :
  String.prefix t s = true <-> exists after, s = (t ++ after)%string.
Proof.
  revert s. induction t as [|a t IH]; intros s; simpl.
  - destruct s; simpl; split; eauto.
  - destruct s as [|b s]; simpl.
    + split; [discriminate | intros [after H]; discriminate].
    + destruct (ascii_dec a b) as [->|Hab].
      * rewrite IH. split; intros [after H]; exists after.
        -- now rewrite H.
        -- now inversion H.
      * split; [discriminate|]. intros [after H]. congruence.
Qed.

(** [includes] finds exactly the texts that occur somewhere in [s]. *)
Lemma includes_occurs s t :
  includes s t = true
  <-> exists before after, s = (before ++ t ++ after)%string.
Proof.
  induction s as [|a s IH]; cbn [includes]; rewrite orb_true_iff, prefix_append.
  - split.
    + intros [[after H]|H]; [|discriminate]. exists EmptyString, after. exact H.
    + intros [before [after H]]. left.
      destruct before; simpl in H; [eauto | discriminate].
  - rewrite IH. split.
    + intros [[after H]|[before [after H]]].
      * exists EmptyString, after. exact H.
      * exists (String a before), after. simpl. now rewrite H.
    + intros [before [after H]]. destruct before as [|b before]; simpl in H.
      * left. eauto.
      * right. inversion H. eauto.
Qed.

Lemma includes_length s t :
  includes s t = true -> String.length t <= String.length s.
Proof.
  intros H. apply includes_occurs in H as [before [after ->]].
  rewrite !length_append. lia.
Qed.

(** A term one character longer than the name does not occur in the name. *)
Lemma name_misses_longer_term (name : string) :
  includes (toLowerCase name) (toLowerCase (name ++ "x")) = false.
Proof.
  destruct (includes _ _) eqn:H; [|reflexivity].
  apply includes_length in H.
  rewrite !toLowerCase_length, length_append in H. simpl in H. lia.
Qed.

Lemma course_matches_throws searchTerm course :
  course_matches searchTerm course = TypeError
  <-> Course.description course = None
      /\ includes (toLowerCase (Course.name course)) (toLowerCase searchTerm)
         = false.
Proof.
  unfold course_matches.
  destruct (includes _ _); destruct (Course.description course);
    split; try discriminate; intuition discriminate.
Qed.

Lemma array_filter_throws {A} (f : A -> completion bool) (l : list A) :
  array_filter f l = TypeError <-> exists x, In x l /\ f x = TypeError.
Proof.
  induction l as [|x l IH]; simpl.
  - split; [discriminate | intros [x [[] _]]].
  - destruct (f x) as [keep|] eqn:Hx.
    + destruct (array_filter f l) as [kept|].
      * split; [discriminate|]. intros [y [[->|Hy] Ey]]; [congruence|].
        assert (Normal kept = @TypeError (list A)) by (apply IH; eauto).
        discriminate.
      * split; [|reflexivity]. intros _.
        destruct (proj1 IH eq_refl) as [y [Hy Ey]]. eauto.
    + split; [|reflexivity]. eauto.
Qed.

Lemma array_filter_returns {A} (f : A -> completion bool) (g : A -> bool)
  (l : list A) :
  (forall x, In x l -> f x = Normal (g x)) ->
  array_filter f l = Normal (filter g l).
Proof.
  induction l as [|x l IH]; simpl; intros H; [reflexivity|].
  rewrite (H x (or_introl eq_refl)), IH; [reflexivity|].
  intros y Hy. apply H. now right.
Qed.


(** C9. The schema takes a course without a description, and the catalogue
    read of an anonymous visitor returns it.  On that list the filter does
    not return the courses that contain the term: course 10 has "Python" in
    its description, but the term is not in the name of the course without
    a description, and the call ends with a [TypeError]. *)
Theorem filter_throws_on_course_without_description :
  insert_course sample_env (Some 9%N)
    (NewCourse.mk (Some 12%N) "Mobile App Development" None (Some "20 weeks")
       (Some true) None (Some 2%Z) (Some 2%Z)) sample_db
  = Ok sample_with_undescribed_course
  /\ fetchCourses sample_with_undescribed_course None
     = [course_10; course_without_description]
  /\ course_matches "python" course_10 = Normal true
  /\ filteredCourses (fetchCourses sample_with_undescribed_course None)
       "python" = TypeError
  /\ filteredCourses [course_without_description] "python" = TypeError.
Proof. repeat split. Qed.

(** C10. The filter returns for every search term exactly when every course
    of the list has a description.  It ends with a [TypeError] exactly when
    some course of the list has none and the term is not in its name.  The
    schema lets such a course be stored: an administrator inserts one, and
    the catalogue read of an anonymous visitor then makes the filter throw. *)
Theorem filter_total_iff_descriptions_present :
  (forall courses,
      (forall searchTerm, filteredCourses courses searchTerm <> TypeError)
      <-> (forall course,
              In course courses -> Course.description course <> None))
  /\ (forall courses searchTerm,
         filteredCourses courses searchTerm = TypeError
         <-> exists course,
               In course courses
               /\ Course.description course = None
               /\ includes (toLowerCase (Course.name course))
                           (toLowerCase searchTerm) = false)
  /\ (exists d',
         insert_course sample_env (Some 9%N)
           (NewCourse.mk None "Mobile App Development" None (Some "20 weeks")
              None None None None) sample_db = Ok d'
         /\ filteredCourses (fetchCourses d' None) "python" = TypeError).
Proof.
  assert (Hthrow : forall courses searchTerm,
             filteredCourses courses searchTerm = TypeError
             <-> exists course,
                   In course courses
                   /\ Course.description course = None
                   /\ includes (toLowerCase (Course.name course))
                               (toLowerCase searchTerm) = false).
  { intros courses searchTerm. unfold filteredCourses.
    rewrite array_filter_throws. split; intros [course [Hc H]];
      exists course; (split; [exact Hc|]); now apply course_matches_throws. }
  split; [|split; [exact Hthrow|]].
  - intros courses. split.
    + intros Htotal course Hc Hnone.
      apply (Htotal (Course.name course ++ "x")%string).
      apply Hthrow. exists course. repeat split; auto.
      apply name_misses_longer_term.
    + intros Hall searchTerm Hthrown.
      apply Hthrow in Hthrown as [course [Hc [Hnone _]]].
      exact (Hall course Hc Hnone).
  - eexists. split; reflexivity.
Qed.

Lemma filter_total_iff_descriptions_present_witness :
  filteredCourses [course_10; course_11] "sql" <> TypeError
  /\ filteredCourses [course_without_description] "python" = TypeError.
Proof.
  split.
  - apply (proj2 (proj1 filter_total_iff_descriptions_present
                    [course_10; course_11])).
    intros course [<-|[<-|[]]]; discriminate.
  - apply (proj2 (proj1 (proj2 filter_total_iff_descriptions_present)
                    [course_without_description] "python")).
    exists course_without_description. repeat split. simpl. auto.
Defined.

(** * Further properties of the store and the pages *)

(** ** Keys and references *)

Lemma mem_In (x : uuid) (l : list uuid) : mem x l = true <-> In x l.
Proof.
  unfold mem. rewrite existsb_exists. split.
  - intros [y [Hy E]]. apply N.eqb_eq in E. now subst.
  - intros H. exists x. split; [exact H | apply N.eqb_refl].
Qed.

Lemma mem_app (x : uuid) (l1 l2 : list uuid) :
  mem x (l1 ++ l2) = mem x l1 || mem x l2.
Proof. apply existsb_app. Qed.

Lemma existsb_filter_map {A B} (p : B -> bool) (key : A -> B)
  (keep : A -> bool) (l : list A) :
  existsb p (map key (filter keep l)) = true -> existsb p (map key l) = true.
Proof.
  induction l as [|x l IH]; simpl; [auto|].
  destruct (keep x); simpl; rewrite ?orb_true_iff; intuition.
Qed.

Lemma distinctb_filter_map {A B} (eqb : B -> B -> bool) (key : A -> B)
  (keep : A -> bool) (l : list A) :
  distinctb eqb (map key l) = true ->
  distinctb eqb (map key (filter keep l)) = true.
Proof.
  induction l as [|x l IH]; simpl; [auto|].
  rewrite andb_true_iff, negb_true_iff. intros [Hx Hl].
  destruct (keep x); simpl; [|auto].
  rewrite andb_true_iff, negb_true_iff. split; [|auto].
  destruct (existsb (eqb (key x)) (map key (filter keep l))) eqn:E;
    [|reflexivity].
  apply existsb_filter_map in E. congruence.
Qed.

Lemma distinctb_filter {A} (eqb : A -> A -> bool) (keep : A -> bool)
  (l : list A) :
  distinctb eqb l = true -> distinctb eqb (filter keep l) = true.
Proof.
  intros H. rewrite <- (map_id (filter keep l)).
  apply distinctb_filter_map. now rewrite map_id.
Qed.

Lemma distinctb_snoc {A} (eqb : A -> A -> bool) (l : list A) (x : A) :
  (forall a b, eqb a b = eqb b a) ->
  distinctb eqb l = true -> existsb (eqb x) l = false ->
  distinctb eqb (l ++ [x]) = true.
Proof.
  intros Hsym. induction l as [|y l IH]; simpl; [auto|].
  rewrite andb_true_iff, negb_true_iff, orb_false_iff.
  intros [Hy Hl] [Hxy Hx].
  rewrite existsb_app, Hy. simpl. rewrite (Hsym y x), Hxy. simpl. auto.
Qed.

Lemma pair_eqb_sym a b : pair_eqb a b = pair_eqb b a.
Proof. unfold pair_eqb. now rewrite (N.eqb_sym (fst a)), (N.eqb_sym (snd a)). Qed.

Lemma app_role_eqb_sym a b : app_role_eqb a b = app_role_eqb b a.
Proof. now destruct a, b. Qed.

Lemma same_assignment_sym a b : same_assignment a b = same_assignment b a.
Proof.
  unfold same_assignment.
  now rewrite (N.eqb_sym (UserRole.user_id a)), (app_role_eqb_sym (UserRole.role a)).
Qed.

(** The eight conjuncts of [constraints_hold]. *)
Lemma constraints_parts d :
  constraints_hold d = true
  <-> distinctb N.eqb (users d) = true
      /\ profiles_unique (profiles d) = true
      /\ forallb (fun p => mem (Profile.user_id p) (users d)) (profiles d)
         = true
      /\ user_roles_unique (user_roles d) = true
      /\ forallb (fun r => mem (UserRole.user_id r) (users d)) (user_roles d)
         = true
      /\ distinctb N.eqb (map Course.id (courses d)) = true
      /\ applications_unique (course_applications d) = true
      /\ forallb (application_row_ok d) (course_applications d) = true.
Proof. unfold constraints_hold. rewrite !andb_true_iff. tauto. Qed.

(** A row that meets its references keeps meeting them when identities and
    courses are only added. *)
Lemma application_row_ok_grows d d' a :
  (forall u, mem u (users d) = true -> mem u (users d') = true) ->
  (forall k, mem k (map Course.id (courses d)) = true ->
             mem k (map Course.id (courses d')) = true) ->
  application_row_ok d a = true -> application_row_ok d' a = true.
Proof.
  unfold application_row_ok. rewrite !andb_true_iff.
  intros Hu Hc [[Hs Hst] Hco]. auto.
Qed.

Lemma forallb_rewritten {A} (ok hit : A -> bool) (new : A -> A) (l : list A) :
  forallb ok l = true ->
  forallb (fun r => implb (hit r) (ok (new r))) l = true ->
  forallb ok (map (fun r => if hit r then new r else r) l) = true.
Proof.
  rewrite !forallb_forall. intros Hold Hnew r' Hr'.
  apply in_map_iff in Hr' as [r [<- Hr]].
  specialize (Hold r Hr). specialize (Hnew r Hr).
  destruct (hit r); auto.
Qed.

(** ** Every statement leaves a store that meets the constraints *)

Lemma insert_application_keeps_constraints e c n d d' :
  constraints_hold d = true ->
  insert_course_application e c n d = Ok d' -> constraints_hold d' = true.
Proof.
  intros Hd H. apply insert_course_application_ok in H as (_ & Hrow & Hnew & ->).
  apply constraints_parts in Hd as (H1 & H2 & H3 & H4 & H5 & H6 & H7 & H8).
  apply constraints_parts. simpl. repeat split; auto.
  - unfold application_is_new in Hnew. unfold applications_unique in *.
    apply andb_true_iff in Hnew as [Hi Hk]. apply negb_true_iff in Hi, Hk.
    apply andb_true_iff in H7 as [H7 H7'].
    rewrite !map_app. simpl. apply andb_true_iff. split.
    + apply distinctb_snoc; auto. apply N.eqb_sym.
    + apply distinctb_snoc; auto. apply pair_eqb_sym.
  - rewrite forallb_app. simpl.
    change (forallb (application_row_ok d) (course_applications d)
            && (application_row_ok d (new_application_row e n) && true) = true).
    now rewrite H8, Hrow.
Qed.

Lemma update_course_applications_inv e c flt p d d' :
  update_course_applications e c flt p d = Ok d' ->
  forallb (fun r => implb (update_application_targets d c flt r)
                          (application_row_ok d (updated_application e p r)))
          (course_applications d) = true
  /\ applications_unique
       (map (fun r => if update_application_targets d c flt r
                      then updated_application e p r else r)
            (course_applications d)) = true
  /\ d' = set_course_applications d
            (map (fun r => if update_application_targets d c flt r
                           then updated_application e p r else r)
                 (course_applications d)).
Proof.
  unfold update_course_applications. intros H.
  apply bind_ok in H as [[] [_ H]]. apply bind_ok in H as [[] [G2 H]].
  apply guard_ok in G2. apply andb_true_iff in G2 as [G2 G3].
  inversion H. auto.
Qed.

Lemma update_applications_keeps_constraints e c flt p d d' :
  constraints_hold d = true ->
  update_course_applications e c flt p d = Ok d' -> constraints_hold d' = true.
Proof.
  intros Hd H. apply update_course_applications_inv in H as (Hrow & Hu & ->).
  apply constraints_parts in Hd as (H1 & H2 & H3 & H4 & H5 & H6 & H7 & H8).
  apply constraints_parts. simpl. repeat split; auto.
  change (forallb (application_row_ok d)
            (map (fun r => if update_application_targets d c flt r
                           then updated_application e p r else r)
                 (course_applications d)) = true).
  now apply forallb_rewritten.
Qed.

Lemma delete_applications_keeps_constraints c flt d d' :
  constraints_hold d = true ->
  delete_course_applications c flt d = Ok d' -> constraints_hold d' = true.
Proof.
  intros Hd H. unfold delete_course_applications in H. inversion H; subst.
  apply constraints_parts in Hd as (H1 & H2 & H3 & H4 & H5 & H6 & H7 & H8).
  apply constraints_parts. simpl. repeat split; auto.
  - unfold applications_unique in *. apply andb_true_iff in H7 as [H7 H7'].
    apply andb_true_iff. split; now apply distinctb_filter_map.
  - change (forallb (application_row_ok d)
              (filter (fun r => negb (targets course_applications_policies d c
                                        DELETE flt r))
                      (course_applications d)) = true).
    now apply forallb_filter.
Qed.

Lemma insert_course_inv e c n d d' :
  insert_course e c n d = Ok d' ->
  check_ok courses_policies d c INSERT (new_course_row e n) = true
  /\ mem (Course.id (new_course_row e n)) (map Course.id (courses d)) = false
  /\ d' = set_courses d (courses d ++ [new_course_row e n]).
Proof.
  unfold insert_course. intros H.
  apply bind_ok in H as [[] [G1 H]]. apply bind_ok in H as [[] [G2 H]].
  apply guard_ok in G1, G2. apply negb_true_iff in G2.
  inversion H. auto.
Qed.

Lemma insert_course_keeps_constraints e c n d d' :
  constraints_hold d = true ->
  insert_course e c n d = Ok d' -> constraints_hold d' = true.
Proof.
  intros Hd H. apply insert_course_inv in H as (_ & Hnew & ->).
  apply constraints_parts in Hd as (H1 & H2 & H3 & H4 & H5 & H6 & H7 & H8).
  apply constraints_parts. simpl. repeat split; auto.
  - rewrite map_app. simpl. apply distinctb_snoc; auto. apply N.eqb_sym.
  - rewrite forallb_forall in *. intros a Ha.
    apply (application_row_ok_grows d); auto.
    simpl. intros k Hk. rewrite map_app, mem_app, Hk. reflexivity.
Qed.

Lemma update_courses_inv e c flt p d d' :
  update_courses e c flt p d = Ok d' ->
  distinctb N.eqb
    (map Course.id
       (map (fun r => if update_course_targets d c flt r
                      then updated_course e p r else r) (courses d))) = true
  /\ applications_reference
       (map (fun r => if update_course_targets d c flt r
                      then updated_course e p r else r) (courses d))
       (course_applications d) = true
  /\ d' = set_courses d
            (map (fun r => if update_course_targets d c flt r
                           then updated_course e p r else r) (courses d)).
Proof.
  unfold update_courses. intros H.
  apply bind_ok in H as [[] [_ H]]. apply bind_ok in H as [[] [G2 H]].
  apply guard_ok in G2. apply andb_true_iff in G2 as [G2 G3].
  inversion H. auto.
Qed.

Lemma update_courses_keeps_constraints e c flt p d d' :
  constraints_hold d = true ->
  update_courses e c flt p d = Ok d' -> constraints_hold d' = true.
Proof.
  intros Hd H. apply update_courses_inv in H as (Hids & Href & ->).
  apply constraints_parts in Hd as (H1 & H2 & H3 & H4 & H5 & H6 & H7 & H8).
  apply constraints_parts. simpl. repeat split; auto.
  unfold applications_reference in Href.
  rewrite forallb_forall in *. intros a Ha.
  specialize (H8 a Ha). specialize (Href a Ha).
  unfold application_row_ok in *. simpl.
  apply andb_true_iff in H8 as [H8 _]. now rewrite H8, Href.
Qed.

Lemma delete_courses_keeps_constraints c flt d d' :
  constraints_hold d = true ->
  delete_courses c flt d = Ok d' -> constraints_hold d' = true.
Proof.
  intros Hd H. unfold delete_courses in H. inversion H; subst. clear H.
  apply constraints_parts in Hd as (H1 & H2 & H3 & H4 & H5 & H6 & H7 & H8).
  apply constraints_parts. simpl. repeat split; auto.
  - now apply distinctb_filter_map.
  - unfold applications_unique in *. apply andb_true_iff in H7 as [H7 H7'].
    apply andb_true_iff. split; now apply distinctb_filter_map.
  - rewrite forallb_forall in *. intros a Ha.
    apply filter_In in Ha as [Ha Hkept]. apply negb_true_iff in Hkept.
    specialize (H8 a Ha). unfold application_row_ok in *. simpl.
    apply andb_true_iff in H8 as [H8 Hc]. rewrite H8. simpl.
    apply mem_In in Hc. apply in_map_iff in Hc as [k [Ek Hk]].
    apply mem_In. apply in_map_iff. exists k. split; [exact Ek|].
    apply filter_In. split; [exact Hk|].
    destruct (targets courses_policies d c DELETE flt k) eqn:Ehit;
      [|reflexivity].
    exfalso. assert (Hin : mem (Application.course_id a)
                             (map Course.id
                                (filter (targets courses_policies d c DELETE
                                           flt) (courses d))) = true).
    { apply mem_In. apply in_map_iff. exists k. split; [exact Ek|].
      apply filter_In. auto. }
    congruence.
Qed.

Lemma update_profiles_inv e c flt p d d' :
  update_profiles e c flt p d = Ok d' ->
  forallb (fun r => implb (update_profile_targets d c flt r)
                          (mem (Profile.user_id (updated_profile e p r))
                               (users d)))
          (profiles d) = true
  /\ profiles_unique
       (map (fun r => if update_profile_targets d c flt r
                      then updated_profile e p r else r) (profiles d)) = true
  /\ d' = set_profiles d
            (map (fun r => if update_profile_targets d c flt r
                           then updated_profile e p r else r) (profiles d)).
Proof.
  unfold update_profiles. intros H.
  apply bind_ok in H as [[] [_ H]]. apply bind_ok in H as [[] [G2 H]].
  apply guard_ok in G2. apply andb_true_iff in G2 as [G2 G3].
  inversion H. auto.
Qed.

Lemma update_profiles_keeps_constraints e c flt p d d' :
  constraints_hold d = true ->
  update_profiles e c flt p d = Ok d' -> constraints_hold d' = true.
Proof.
  intros Hd H. apply update_profiles_inv in H as (Hfk & Hu & ->).
  apply constraints_parts in Hd as (H1 & H2 & H3 & H4 & H5 & H6 & H7 & H8).
  apply constraints_parts. simpl. repeat split; auto.
  now apply (forallb_rewritten
               (fun r => mem (Profile.user_id r) (users d))).
Qed.

Lemma create_user_inv e u d d' :
  create_user e u d = Ok d' ->
  mem (auth_id u) (users d) = false
  /\ mem (gen_random_uuid e 0) (map Profile.id (profiles d)) = false
  /\ mem (auth_id u) (map Profile.user_id (profiles d)) = false
  /\ mem (gen_random_uuid e 1) (map UserRole.id (user_roles d)) = false
  /\ existsb (same_assignment
                (UserRole.mk (gen_random_uuid e 1) (auth_id u) student (now e)))
             (user_roles d) = false
  /\ d' = mkdb (users d ++ [auth_id u])
            (profiles d
             ++ [Profile.mk (gen_random_uuid e 0) (auth_id u)
                   (meta_first_name u) (meta_last_name u) None None
                   (now e) (now e)])
            (user_roles d
             ++ [UserRole.mk (gen_random_uuid e 1) (auth_id u) student (now e)])
            (courses d) (course_applications d).
Proof.
  unfold create_user, handle_new_user, definer_insert_profile,
    definer_insert_user_role.
  intros H.
  apply bind_ok in H as [[] [G0 H]].
  apply bind_ok in H as [d1 [H1 H]].
  apply bind_ok in H1 as [[] [G1 H1]].
  apply bind_ok in H as [d2 [H2 H]].
  apply bind_ok in H2 as [[] [G2 H2]].
  apply guard_ok in G0, G1, G2.
  apply negb_true_iff in G0.
  apply andb_true_iff in G1 as [G1 _]. apply andb_true_iff in G1 as [G1 G1'].
  apply negb_true_iff in G1, G1'.
  inversion H1; subst d1. clear H1.
  apply andb_true_iff in G2 as [G2 _]. apply andb_true_iff in G2 as [G2 G2'].
  apply negb_true_iff in G2, G2'.
  inversion H2; subst d2. inversion H; subst d'.
  simpl in *. auto 10.
Qed.

Lemma forallb_mem_grows {A} (key : A -> uuid) (l : list A) (us : list uuid)
  (u : uuid) :
  forallb (fun r => mem (key r) us) l = true ->
  forallb (fun r => mem (key r) (us ++ [u])) l = true.
Proof.
  rewrite !forallb_forall. intros H r Hr. rewrite mem_app, (H r Hr).
  reflexivity.
Qed.

Lemma create_user_keeps_constraints e u d d' :
  constraints_hold d = true ->
  create_user e u d = Ok d' -> constraints_hold d' = true.
Proof.
  intros Hd H.
  apply create_user_inv in H as (Hu & Hpi & Hpu & Hri & Hra & ->).
  apply constraints_parts in Hd as (H1 & H2 & H3 & H4 & H5 & H6 & H7 & H8).
  apply constraints_parts. simpl.
  assert (Hself : mem (auth_id u) (users d ++ [auth_id u]) = true).
  { rewrite mem_app. simpl. rewrite N.eqb_refl. apply orb_true_r. }
  repeat split; auto.
  - apply distinctb_snoc; auto. apply N.eqb_sym.
  - unfold profiles_unique in *. apply andb_true_iff in H2 as [H2 H2'].
    rewrite !map_app. simpl. apply andb_true_iff.
    split; apply distinctb_snoc; auto; apply N.eqb_sym.
  - rewrite forallb_app. simpl. rewrite Hself.
    now rewrite forallb_mem_grows.
  - unfold user_roles_unique in *. apply andb_true_iff in H4 as [H4 H4'].
    rewrite !map_app. simpl. apply andb_true_iff. split.
    + apply distinctb_snoc; auto. apply N.eqb_sym.
    + apply distinctb_snoc; auto. apply same_assignment_sym.
  - rewrite forallb_app. simpl. rewrite Hself.
    now rewrite forallb_mem_grows.
  - rewrite forallb_forall in *. intros a Ha.
    apply (application_row_ok_grows d); auto.
    simpl. intros k Hk. now rewrite mem_app, Hk.
Qed.

Lemma forallb_mem_after_delete {A} (key : A -> uuid) (l : list A)
  (us : list uuid) (u : uuid) :
  forallb (fun r => mem (key r) us) l = true ->
  forallb (fun r => mem (key r) (filter (fun x => negb (N.eqb x u)) us))
          (filter (fun r => negb (N.eqb (key r) u)) l) = true.
Proof.
  rewrite !forallb_forall. intros H r Hr.
  apply filter_In in Hr as [Hr Hne].
  apply mem_In. apply filter_In. split; [|exact Hne].
  apply mem_In. auto.
Qed.

Lemma delete_user_keeps_constraints u d :
  constraints_hold d = true -> constraints_hold (delete_user u d) = true.
Proof.
  intros Hd.
  apply constraints_parts in Hd as (H1 & H2 & H3 & H4 & H5 & H6 & H7 & H8).
  apply constraints_parts. simpl. repeat split; auto.
  - now apply distinctb_filter.
  - unfold profiles_unique in *. apply andb_true_iff in H2 as [H2 H2'].
    apply andb_true_iff. split; now apply distinctb_filter_map.
  - now apply forallb_mem_after_delete.
  - unfold user_roles_unique in *. apply andb_true_iff in H4 as [H4 H4'].
    apply andb_true_iff. split;
      [now apply distinctb_filter_map | now apply distinctb_filter].
  - now apply forallb_mem_after_delete.
  - unfold applications_unique in *. apply andb_true_iff in H7 as [H7 H7'].
    apply andb_true_iff. split; now apply distinctb_filter_map.
  - rewrite forallb_forall in *. intros a Ha.
    apply filter_In in Ha as [Ha Hne]. specialize (H8 a Ha).
    unfold application_row_ok in *. simpl.
    apply andb_true_iff in H8 as [H8 Hc]. apply andb_true_iff in H8 as [Hs Hst].
    rewrite Hs, Hc. simpl. rewrite andb_true_r.
    apply mem_In. apply filter_In. split; [|exact Hne]. now apply mem_In.
Qed.

Lemma insert_user_role_inv e c n d d' :
  insert_user_role e c n d = Ok d' ->
  check_ok user_roles_policies d c INSERT (new_user_role_row e n) = true
  /\ mem (UserRole.id (new_user_role_row e n)) (map UserRole.id (user_roles d))
     = false
  /\ existsb (same_assignment (new_user_role_row e n)) (user_roles d) = false
  /\ mem (UserRole.user_id (new_user_role_row e n)) (users d) = true
  /\ d' = set_user_roles d (user_roles d ++ [new_user_role_row e n]).
Proof.
  unfold insert_user_role. intros H.
  apply bind_ok in H as [[] [G1 H]]. apply bind_ok in H as [[] [G2 H]].
  apply guard_ok in G1, G2.
  apply andb_true_iff in G2 as [G2 G4]. apply andb_true_iff in G2 as [G2 G3].
  apply negb_true_iff in G2, G3. inversion H. auto.
Qed.

Lemma update_user_roles_inv c flt p d d' :
  update_user_roles c flt p d = Ok d' ->
  forallb (fun r => implb (targets user_roles_policies d c UPDATE flt r)
                          (mem (UserRole.user_id (patch_user_role p r))
                               (users d)))
          (user_roles d) = true
  /\ user_roles_unique
       (map (fun r => if targets user_roles_policies d c UPDATE flt r
                      then patch_user_role p r else r) (user_roles d)) = true
  /\ d' = set_user_roles d
            (map (fun r => if targets user_roles_policies d c UPDATE flt r
                           then patch_user_role p r else r) (user_roles d)).
Proof.
  unfold update_user_roles. intros H.
  apply bind_ok in H as [[] [_ H]]. apply bind_ok in H as [[] [G2 H]].
  apply guard_ok in G2. apply andb_true_iff in G2 as [G2 G3].
  inversion H. auto.
Qed.

Lemma role_statements_keep_constraints d :
  constraints_hold d = true ->
  (forall e c n d', insert_user_role e c n d = Ok d' ->
                    constraints_hold d' = true)
  /\ (forall c flt p d', update_user_roles c flt p d = Ok d' ->
                         constraints_hold d' = true)
  /\ (forall c flt d', delete_user_roles c flt d = Ok d' ->
                       constraints_hold d' = true).
Proof.
  intros Hd.
  apply constraints_parts in Hd as (H1 & H2 & H3 & H4 & H5 & H6 & H7 & H8).
  split; [|split].
  - intros e c n d' H.
    apply insert_user_role_inv in H as (_ & Hi & Ha & Hu & ->).
    apply constraints_parts. simpl. repeat split; auto.
    + unfold user_roles_unique in *. apply andb_true_iff in H4 as [H4 H4'].
      rewrite !map_app. simpl. apply andb_true_iff. split.
      * apply distinctb_snoc; auto. apply N.eqb_sym.
      * apply distinctb_snoc; auto. apply same_assignment_sym.
    + rewrite forallb_app, H5. cbn [forallb andb]. now rewrite Hu.
  - intros c flt p d' H. apply update_user_roles_inv in H as (Hfk & Hu & ->).
    apply constraints_parts. simpl. repeat split; auto.
    now apply (forallb_rewritten
                 (fun r => mem (UserRole.user_id r) (users d))).
  - intros c flt d' H. unfold delete_user_roles in H. inversion H; subst.
    apply constraints_parts. simpl. repeat split; auto.
    + unfold user_roles_unique in *. apply andb_true_iff in H4 as [H4 H4'].
      apply andb_true_iff. split;
        [now apply distinctb_filter_map | now apply distinctb_filter].
    + now apply forallb_filter.
Qed.

(** X1. Whatever goes through leaves a store in which every primary key, unique
    constraint, check constraint and foreign key of the migration holds: a
    request of any caller on profiles, courses or applications, a statement
    on the roles, the creation and the deletion of an identity. *)
Theorem statements_keep_the_constraints (d : db) :
  constraints_hold d = true ->
  (forall e c q d', exec e c q d = Ok d' -> constraints_hold d' = true)
  /\ (forall e u d', create_user e u d = Ok d' -> constraints_hold d' = true)
  /\ (forall u, constraints_hold (delete_user u d) = true)
  /\ (forall e c n d', insert_user_role e c n d = Ok d' ->
                       constraints_hold d' = true)
  /\ (forall c flt p d', update_user_roles c flt p d = Ok d' ->
                         constraints_hold d' = true)
  /\ (forall c flt d', delete_user_roles c flt d = Ok d' ->
                       constraints_hold d' = true).
Proof.
  intros Hd. split; [|split; [|split]].
  - intros e c q d' H. destruct q; simpl in H.
    + eapply insert_application_keeps_constraints; eauto.
    + eapply update_applications_keeps_constraints; eauto.
    + eapply delete_applications_keeps_constraints; eauto.
    + eapply insert_course_keeps_constraints; eauto.
    + eapply update_courses_keeps_constraints; eauto.
    + eapply delete_courses_keeps_constraints; eauto.
    + eapply update_profiles_keeps_constraints; eauto.
  - intros e u d' H. eapply create_user_keeps_constraints; eauto.
  - intros u. now apply delete_user_keeps_constraints.
  - now apply role_statements_keep_constraints.
Qed.

Lemma statements_keep_the_constraints_witness :
  constraints_hold sample_after_approval = true
  /\ constraints_hold (delete_user 2 sample_db) = true.
Proof.
  split.
  - exact (proj1 (statements_keep_the_constraints sample_db eq_refl)
             sample_env (Some 9%N)
             (UpdateApplications (fun a => N.eqb (Application.id a) 300)
                (ApplicationPatch.mk None None None (Some "approved") None
                   None))
             sample_after_approval eq_refl).
  - exact (proj1 (proj2 (proj2 (statements_keep_the_constraints sample_db
                                  eq_refl))) 2%N).
Defined.

(** ** Courses are managed by administrators only *)

Lemma filter_nothing {A} (f : A -> bool) (l : list A) :
  (forall x, In x l -> f x = false) -> filter f l = [].
Proof.
  induction l as [|x l IH]; simpl; intros H; [reflexivity|].
  rewrite (H x (or_introl eq_refl)). apply IH. intros y Hy. apply H. now right.
Qed.

Lemma map_untouched {A} (hit : A -> bool) (new : A -> A) (l : list A) :
  (forall x, In x l -> hit x = false) ->
  map (fun r => if hit r then new r else r) l = l.
Proof.
  induction l as [|x l IH]; simpl; intros H; [reflexivity|].
  rewrite (H x (or_introl eq_refl)), IH; [reflexivity|].
  intros y Hy. apply H. now right.
Qed.

Lemma set_courses_same d : set_courses d (courses d) = d.
Proof. destruct d; reflexivity. Qed.

Lemma courses_insert_check d c r :
  check_ok courses_policies d c INSERT r = has_role d c admin.
Proof.
  unfold check_ok, courses_policies, applies, eval_with_check, eval_using;
    simpl.
  destruct (has_role d c admin); reflexivity.
Qed.

Lemma courses_update_using d c r :
  using_ok courses_policies d c UPDATE r = has_role d c admin.
Proof.
  unfold using_ok, courses_policies, applies, eval_using; simpl.
  destruct (has_role d c admin); reflexivity.
Qed.

Lemma courses_update_check d c r :
  check_ok courses_policies d c UPDATE r = has_role d c admin.
Proof.
  unfold check_ok, courses_policies, applies, eval_with_check, eval_using;
    simpl.
  destruct (has_role d c admin); reflexivity.
Qed.

Lemma courses_delete_using d c r :
  using_ok courses_policies d c DELETE r = has_role d c admin.
Proof.
  unfold using_ok, courses_policies, applies, eval_using; simpl.
  destruct (has_role d c admin); reflexivity.
Qed.

(** The courses an [UPDATE] or a [DELETE] acts on are those the filter
    selects when the caller is an administrator, and none otherwise. *)
Lemma course_targets_admin d c flt r :
  update_course_targets d c flt r = flt r && has_role d c admin
  /\ targets courses_policies d c DELETE flt r = flt r && has_role d c admin.
Proof.
  unfold update_course_targets, targets.
  rewrite courses_update_using, courses_delete_using, courses_select_using.
  destruct (flt r), (Course.availability r), (has_role d c admin); auto.
Qed.

Lemma delete_courses_by_non_admin d c flt :
  has_role d c admin = false -> delete_courses c flt d = Ok d.
Proof.
  intros Hadm. unfold delete_courses.
  assert (Hhit : forall r, targets courses_policies d c DELETE flt r = false).
  { intros r. rewrite (proj2 (course_targets_admin d c flt r)), Hadm.
    apply andb_false_r. }
  rewrite (filter_nothing (targets courses_policies d c DELETE flt))
    by (intros; apply Hhit).
  simpl. rewrite !filter_all.
  - now destruct d.
  - reflexivity.
  - intros r _. now rewrite Hhit.
Qed.

Lemma update_courses_by_non_admin e d c flt p d' :
  has_role d c admin = false ->
  update_courses e c flt p d = Ok d' -> d' = d.
Proof.
  intros Hadm H. apply update_courses_ok in H. subst d'.
  rewrite map_untouched; [apply set_courses_same|].
  intros r _. rewrite (proj1 (course_targets_admin d c flt r)), Hadm.
  apply andb_false_r.
Qed.

(** X2. A caller who does not hold the admin role cannot change the courses: no
    request of such a caller that goes through changes the table.  In the
    admin dashboard the creation is refused as a policy violation, while the
    update and the deletion change nothing and the deletion still reports
    "Course Deleted". *)
Theorem courses_change_by_admin_only (d : db) (c : caller) :
  has_role d c admin = false ->
  (forall e q d', exec e c q d = Ok d' -> courses d' = courses d)
  /\ (forall e newCourse,
         createCourse e c newCourse d
         = mkoutcome d "Creation Failed" (Some PolicyDenied))
  /\ (forall e course, store (updateCourse e c course d) = d)
  /\ (forall courseId,
         deleteCourse c courseId d = mkoutcome d "Course Deleted" None).
Proof.
  intros Hadm. split; [|split; [|split]].
  - intros e q d' H. destruct q; simpl in H.
    + apply insert_course_application_ok in H as (_ & _ & _ & ->). reflexivity.
    + apply update_course_applications_ok in H as [_ ->]. reflexivity.
    + unfold delete_course_applications in H. now inversion H.
    + apply insert_course_inv in H as (Hc & _).
      rewrite courses_insert_check in Hc. congruence.
    + apply update_courses_by_non_admin in H; [now subst | exact Hadm].
    + rewrite delete_courses_by_non_admin in H by exact Hadm. now inversion H.
    + apply update_profiles_ok in H. now subst.
  - intros e newCourse. unfold createCourse, insert_course.
    rewrite courses_insert_check, Hadm. reflexivity.
  - intros e course. unfold updateCourse. rewrite store_report.
    destruct (update_courses _ _ _ _ d) as [d'|] eqn:H; [|reflexivity].
    simpl. now apply update_courses_by_non_admin in H.
  - intros courseId. unfold deleteCourse.
    now rewrite delete_courses_by_non_admin.
Qed.

Lemma courses_change_by_admin_only_witness :
  createCourse sample_env (Some 1%N)
    (mkcourseform "Free Credits" "Easy" "1 week" true (Some 1%Z)) sample_db
  = mkoutcome sample_db "Creation Failed" (Some PolicyDenied)
  /\ deleteCourse (Some 1%N) 10 sample_db
     = mkoutcome sample_db "Course Deleted" None.
Proof.
  pose proof (courses_change_by_admin_only sample_db (Some 1%N) eq_refl)
    as (_ & Hcreate & _ & Hdelete).
  split; [apply Hcreate | apply Hdelete].
Defined.

(** ** Roles are managed by administrators only *)

Lemma user_roles_insert_check d c r :
  check_ok user_roles_policies d c INSERT r = has_role d c admin.
Proof.
  unfold check_ok, user_roles_policies, applies, eval_with_check, eval_using;
    simpl.
  destruct (has_role d c admin); reflexivity.
Qed.

Lemma user_roles_targets_need_admin d c cmd flt r :
  cmd = UPDATE \/ cmd = DELETE ->
  has_role d c admin = false ->
  targets user_roles_policies d c cmd flt r = false.
Proof.
  intros Hcmd Hadm. unfold targets.
  assert (E : using_ok user_roles_policies d c cmd r = false).
  { unfold using_ok, user_roles_policies, applies, eval_using.
    destruct Hcmd as [-> | ->]; simpl; now rewrite Hadm. }
  rewrite E. apply andb_false_r.
Qed.

Lemma set_user_roles_same d : set_user_roles d (user_roles d) = d.
Proof. destruct d; reflexivity. Qed.

Lemma exec_keeps_roles e c q d d' :
  exec e c q d = Ok d' -> user_roles d' = user_roles d.
Proof.
  intros H. destruct q; simpl in H.
  - apply insert_course_application_ok in H as (_ & _ & _ & ->). reflexivity.
  - apply update_course_applications_ok in H as [_ ->]. reflexivity.
  - unfold delete_course_applications in H. now inversion H.
  - apply insert_course_ok in H. now subst.
  - apply update_courses_ok in H. now subst.
  - unfold delete_courses in H. now inversion H.
  - apply update_profiles_ok in H. now subst.
Qed.

(** X3. A caller who does not hold the admin role cannot grant, change or revoke
    a role: the insert is refused as a policy violation, an update or a
    delete that goes through leaves the store as it is.  No request on
    profiles, courses or applications, by any caller, touches the roles; so
    after any of these statements the caller still does not hold the admin
    role. *)
Theorem roles_change_by_admin_only (d : db) (c : caller) :
  has_role d c admin = false ->
  (forall e n, insert_user_role e c n d = Err PolicyDenied)
  /\ (forall flt p d', update_user_roles c flt p d = Ok d' -> d' = d)
  /\ (forall flt, delete_user_roles c flt d = Ok d)
  /\ (forall e c' q d', exec e c' q d = Ok d' ->
                        user_roles d' = user_roles d
                        /\ has_role d' c admin = false).
Proof.
  intros Hadm. split; [|split; [|split]].
  - intros e n. unfold insert_user_role.
    rewrite user_roles_insert_check, Hadm. reflexivity.
  - intros flt p d' H. apply update_user_roles_inv in H as (_ & _ & ->).
    rewrite map_untouched; [apply set_user_roles_same|].
    intros r _. apply user_roles_targets_need_admin; auto.
  - intros flt. unfold delete_user_roles.
    rewrite filter_all; [now rewrite set_user_roles_same|].
    intros r _. rewrite user_roles_targets_need_admin; auto.
  - intros e c' q d' H. pose proof (exec_keeps_roles _ _ _ _ _ H) as E.
    split; [exact E|]. unfold has_role in *. now rewrite E.
Qed.

Lemma roles_change_by_admin_only_witness :
  insert_user_role sample_env (Some 1%N)
    (NewUserRole.mk None 1 (Some admin) None) sample_db = Err PolicyDenied
  /\ delete_user_roles (Some 1%N) (fun _ => true) sample_db = Ok sample_db.
Proof.
  pose proof (roles_change_by_admin_only sample_db (Some 1%N) eq_refl)
    as (Hins & _ & Hdel & _).
  split; [apply Hins | apply Hdel].
Defined.

(** ** Applying to a course *)

(** X4. Nobody applies for somebody else: an insert whose [student_id] is not
    the caller's identity is refused as a policy violation unless the caller
    is an administrator; the anonymous caller can insert nothing, and the
    catalogue page does not even send the request. *)
Theorem application_insert_for_oneself_only e c n d :
  uid_is c (NewApplication.student_id n) = false ->
  has_role d c admin = false ->
  insert_course_application e c n d = Err PolicyDenied
  /\ (forall n', insert_course_application e None n' d = Err PolicyDenied)
  /\ (forall course,
         handleApply e None course d
         = mkoutcome d "Authentication Required" None).
Proof.
  intros Hown Hadm. split; [|split].
  - unfold insert_course_application.
    rewrite applications_insert_check.
    cbn [new_application_row Application.student_id].
    now rewrite Hown, Hadm.
  - intros n'. unfold insert_course_application.
    rewrite applications_insert_check, anonymous_has_no_role. reflexivity.
  - reflexivity.
Qed.

Lemma application_insert_for_oneself_only_witness :
  insert_course_application sample_env (Some 1%N)
    (NewApplication.mk None 2 11 None None None) sample_db = Err PolicyDenied.
Proof.
  exact (proj1 (application_insert_for_oneself_only sample_env (Some 1%N)
                  (NewApplication.mk None 2 11 None None None) sample_db
                  eq_refl eq_refl)).
Defined.

Lemma mem_map_false {A} (key : A -> uuid) (k : uuid) (l : list A) :
  mem k (map key l) = false <-> (forall a, In a l -> key a <> k).
Proof.
  rewrite mem_map_existsb. split.
  - intros H a Ha E.
    assert (existsb (fun r => N.eqb (key r) k) l = true); [|congruence].
    apply existsb_exists. exists a. split; [exact Ha | now apply N.eqb_eq].
  - intros H. destruct (existsb _ l) eqn:E; [|reflexivity].
    apply existsb_exists in E as [a [Ha E]]. apply N.eqb_eq in E.
    now apply H in Ha.
Qed.

(** X5. A signed-in user who exists in the store applies to a stored course for
    which the user has no application yet, and the generated id is not
    taken: the application is stored as 'pending', with both timestamps at
    the time of the request.  Nothing else is asked: neither that the course
    is available nor that it has room left ([max_students]). *)
Theorem handleApply_submits e uid course d :
  mem uid (users d) = true ->
  mem (Course.id course) (map Course.id (courses d)) = true ->
  mem (gen_random_uuid e 0) (map Application.id (course_applications d))
  = false ->
  (forall a, In a (course_applications d) ->
             ~ (Application.student_id a = uid
                /\ Application.course_id a = Course.id course)) ->
  handleApply e (Some uid) course d
  = mkoutcome
      (set_course_applications d
         (course_applications d
          ++ [Application.mk (gen_random_uuid e 0) uid (Course.id course)
                "pending" (now e) (now e)]))
      "Application Submitted" None.
Proof.
  intros Hu Hc Hid Hnew. unfold handleApply, insert_course_application.
  change (new_application_row e
            (NewApplication.mk None uid (Course.id course) None None None))
    with (Application.mk (gen_random_uuid e 0) uid (Course.id course)
            "pending" (now e) (now e)).
  rewrite applications_insert_check.
  cbn [Application.student_id]. rewrite uid_is_self. cbn [orb guard bind].
  unfold application_row_ok, application_is_new.
  cbn [Application.status Application.student_id Application.course_id
         Application.id].
  change (status_check "pending") with true.
  rewrite Hu, Hc, Hid.
  assert (E : existsb
                (pair_eqb
                   (application_key
                      (Application.mk (gen_random_uuid e 0) uid
                         (Course.id course) "pending" (now e) (now e))))
                (map application_key (course_applications d)) = false).
  { destruct (existsb _ _) eqn:E; [|reflexivity].
    apply (existsb_In pair_eqb _ _ pair_eqb_eq) in E.
    apply in_map_iff in E as [a [Ek Ha]]. exfalso. apply (Hnew a Ha).
    unfold application_key in Ek. simpl in Ek. now inversion Ek. }
  rewrite E. reflexivity.
Qed.

Lemma handleApply_submits_witness :
  handleApply sample_env (Some 1%N) course_11 sample_db
  = mkoutcome
      (set_course_applications sample_db
         [application_300; application_301;
          Application.mk 900 1 11 "pending" 1000 1000])
      "Application Submitted" None.
Proof.
  apply (handleApply_submits sample_env 1%N course_11 sample_db);
    try reflexivity.
  intros a [<-|[<-|[]]] [H1 H2]; discriminate.
Defined.

Lemma filter_of_wider_filter {A} (f g : A -> bool) (l : list A) :
  (forall x, f x = true -> g x = true) ->
  filter f (filter g l) = filter f l.
Proof.
  intros H. induction l as [|x l IH]; simpl; [reflexivity|].
  destruct (g x) eqn:Eg; simpl.
  - now rewrite IH.
  - destruct (f x) eqn:Ef; [|exact IH]. apply H in Ef. congruence.
Qed.

Lemma fetchUserApplications_own d uid :
  fetchUserApplications d (Some uid)
  = map Application.course_id
      (filter (fun a => N.eqb (Application.student_id a) uid)
              (course_applications d)).
Proof.
  unfold fetchUserApplications, select_course_applications, rls_select.
  f_equal. apply filter_of_wider_filter. intros a Ha.
  rewrite applications_select_using. simpl. now rewrite N.eqb_sym, Ha.
Qed.

(** X6. The catalogue marks a course as applied exactly when the signed-in user
    has an application for it in the store, and after an application went
    through, the list fetched again marks the course. *)
Theorem isApplied_after_applying e uid course d :
  (isApplied (fetchUserApplications d (Some uid)) course = true
   <-> exists a, In a (course_applications d)
                 /\ Application.student_id a = uid
                 /\ Application.course_id a = Course.id course)
  /\ (toast_error (handleApply e (Some uid) course d) = None ->
      isApplied
        (fetchUserApplications (store (handleApply e (Some uid) course d))
           (Some uid)) course = true).
Proof.
  assert (Hiff : forall d0,
             isApplied (fetchUserApplications d0 (Some uid)) course = true
             <-> exists a, In a (course_applications d0)
                           /\ Application.student_id a = uid
                           /\ Application.course_id a = Course.id course).
  { intros d0. unfold isApplied. rewrite fetchUserApplications_own, mem_In.
    rewrite in_map_iff. split.
    - intros [a [Ec Ha]]. apply filter_In in Ha as [Ha Es].
      apply N.eqb_eq in Es. eauto.
    - intros [a [Ha [Es Ec]]]. exists a. split; [exact Ec|].
      apply filter_In. split; [exact Ha | now apply N.eqb_eq]. }
  split; [apply Hiff|].
  intros Hok. apply Hiff. unfold handleApply in *.
  destruct (insert_course_application _ _ _ d) as [d'|x] eqn:H;
    [|discriminate].
  apply insert_course_application_ok in H as (_ & _ & _ & ->). simpl.
  eexists. split; [apply in_or_app; right; left; reflexivity|].
  split; reflexivity.
Qed.

Lemma isApplied_after_applying_witness :
  isApplied
    (fetchUserApplications
       (store (handleApply sample_env (Some 1%N) course_11 sample_db))
       (Some 1%N)) course_11 = true.
Proof.
  exact (proj2 (isApplied_after_applying sample_env 1%N course_11 sample_db)
           eq_refl).
Defined.

(** ** Cancelling and deciding applications *)

Lemma applications_update_using d c a :
  using_ok course_applications_policies d c UPDATE a
  = uid_is c (Application.student_id a) || has_role d c admin.
Proof.
  unfold using_ok, course_applications_policies, applies, eval_using; simpl.
  destruct (uid_is c (Application.student_id a)), (has_role d c admin);
    reflexivity.
Qed.

Lemma applications_update_check d c a :
  check_ok course_applications_policies d c UPDATE a
  = uid_is c (Application.student_id a) || has_role d c admin.
Proof.
  unfold check_ok, course_applications_policies, applies, eval_with_check,
    eval_using; simpl.
  destruct (uid_is c (Application.student_id a)), (has_role d c admin);
    reflexivity.
Qed.

(** An [UPDATE course_applications] rewrites the rows the filter selects
    among the caller's own, among all rows for an administrator. *)
Lemma update_application_targets_eq d c flt a :
  update_application_targets d c flt a
  = flt a && (uid_is c (Application.student_id a) || has_role d c admin).
Proof.
  unfold update_application_targets, targets.
  rewrite applications_update_using, applications_select_using.
  destruct (flt a), (uid_is c (Application.student_id a)),
    (has_role d c admin); reflexivity.
Qed.

(** X7. The cancel request never fails.  It removes the application with the
    given id when the caller holds the admin role and nothing otherwise; the
    dashboard reports "Application Cancelled" in both cases. *)
Theorem cancelApplication_removes_for_admin_only c applicationId d :
  cancelApplication c applicationId d
  = mkoutcome
      (if has_role d c admin
       then set_course_applications d
              (filter (fun a => negb (N.eqb (Application.id a) applicationId))
                      (course_applications d))
       else d)
      "Application Cancelled" None.
Proof.
  destruct (has_role d c admin) eqn:Hadm.
  - unfold cancelApplication, delete_course_applications. simpl.
    f_equal. f_equal. apply filter_ext. intros a. unfold targets.
    rewrite applications_delete_using, applications_select_using, Hadm.
    now rewrite orb_true_r, !andb_true_r.
  - unfold cancelApplication.
    now rewrite delete_by_non_admin_removes_nothing.
Qed.

Lemma forallb_false {A} (f : A -> bool) (l : list A) (x : A) :
  In x l -> f x = false -> forallb f l = false.
Proof.
  intros Hx Hf. destruct (forallb f l) eqn:E; [|reflexivity].
  rewrite forallb_forall in E. rewrite (E x Hx) in Hf. discriminate.
Qed.

(** The policies let every targeted row of a status update through: the
    update keeps [student_id]. *)
Lemma status_update_passes_policies e c x s d :
  forallb
    (fun r =>
       implb (update_application_targets d c
                (fun a => N.eqb (Application.id a) x) r)
         (check_ok course_applications_policies d c UPDATE
            (updated_application e
               (ApplicationPatch.mk None None None (Some s) None None) r)
          && using_ok course_applications_policies d c SELECT
               (updated_application e
                  (ApplicationPatch.mk None None None (Some s) None None) r)))
    (course_applications d) = true.
Proof.
  apply forallb_forall. intros r _.
  rewrite update_application_targets_eq, applications_update_check,
    applications_select_using.
  cbn [updated_application touch_application patch_application default
         ApplicationPatch.student_id Application.student_id].
  destruct (N.eqb (Application.id r) x),
    (uid_is c (Application.student_id r) || has_role d c admin); reflexivity.
Qed.

Lemma updateApplicationStatus_outcome e c x s d :
  constraints_hold d = true ->
  status_check s = true ->
  updateApplicationStatus e c x s d
  = mkoutcome
      (set_course_applications d
         (map (fun a =>
                 if N.eqb (Application.id a) x
                    && (uid_is c (Application.student_id a)
                        || has_role d c admin)
                 then Application.mk (Application.id a)
                        (Application.student_id a) (Application.course_id a)
                        s (Application.applied_at a) (now e)
                 else a)
              (course_applications d)))
      "Application Updated" None.
Proof.
  intros Hd Hs.
  apply constraints_parts in Hd as (_ & _ & _ & _ & _ & _ & H7 & H8).
  unfold updateApplicationStatus, update_course_applications. cbv zeta.
  rewrite status_update_passes_policies. cbn [guard bind].
  set (p := ApplicationPatch.mk None None None (Some s) None None).
  set (flt := fun a => N.eqb (Application.id a) x).
  assert (G2 : forallb
                 (fun r => implb (update_application_targets d c flt r)
                             (application_row_ok d (updated_application e p r)))
                 (course_applications d) = true).
  { rewrite forallb_forall in *. intros r Hr. specialize (H8 r Hr).
    destruct (update_application_targets d c flt r); [|reflexivity].
    unfold application_row_ok in *. simpl.
    apply andb_true_iff in H8 as [H8 Hc]. apply andb_true_iff in H8 as [_ Hu].
    now rewrite Hs, Hu, Hc. }
  assert (G3 : applications_unique
                 (map (fun r => if update_application_targets d c flt r
                                then updated_application e p r else r)
                      (course_applications d)) = true).
  { unfold applications_unique.
    rewrite (map_rewritten_key Application.id),
      (map_rewritten_key application_key); auto. }
  rewrite G2, G3. cbn [andb guard bind report]. f_equal. f_equal.
  apply map_ext. intros a. now rewrite update_application_targets_eq.
Qed.

(** X8. In a store that meets its constraints, a status update with one of the
    three statuses goes through for every caller.  It rewrites the
    application with the given id when the caller owns it or holds the admin
    role: an administrator decides any application, and the owner can write
    any status, 'approved' included, on an own application.  For any other
    caller nothing changes, and the toast still reads "Application
    Updated". *)
Theorem updateApplicationStatus_applies e c x s d :
  constraints_hold d = true ->
  status_check s = true ->
  toast_error (updateApplicationStatus e c x s d) = None
  /\ toast_title (updateApplicationStatus e c x s d) = "Application Updated"
  /\ store (updateApplicationStatus e c x s d)
     = set_course_applications d
         (map (fun a =>
                 if N.eqb (Application.id a) x
                    && (uid_is c (Application.student_id a)
                        || has_role d c admin)
                 then Application.mk (Application.id a)
                        (Application.student_id a) (Application.course_id a)
                        s (Application.applied_at a) (now e)
                 else a)
              (course_applications d)).
Proof.
  intros Hd Hs. now rewrite (updateApplicationStatus_outcome e c x s d Hd Hs).
Qed.

Lemma updateApplicationStatus_applies_witness :
  store (updateApplicationStatus sample_env (Some 1%N) 300 "approved"
           sample_db) = sample_after_approval
  /\ store (updateApplicationStatus sample_env (Some 2%N) 300 "approved"
              sample_db) = sample_db.
Proof.
  split.
  - exact (proj2 (proj2 (updateApplicationStatus_applies sample_env
                           (Some 1%N) 300 "approved" sample_db
                           eq_refl eq_refl))).
  - exact (proj2 (proj2 (updateApplicationStatus_applies sample_env
                           (Some 2%N) 300 "approved" sample_db
                           eq_refl eq_refl))).
Defined.

(** X9. A status outside 'pending', 'approved', 'rejected' is refused by the
    check constraint: when the caller may update the application, the update
    fails with a constraint violation and the store stays as it is. *)
Theorem status_outside_domain_is_rejected e c x s d a :
  status_check s = false ->
  In a (course_applications d) ->
  Application.id a = x ->
  uid_is c (Application.student_id a) || has_role d c admin = true ->
  updateApplicationStatus e c x s d
  = mkoutcome d "Update Failed" (Some ConstraintViolation).
Proof.
  intros Hs Ha Hx Hmay.
  unfold updateApplicationStatus, update_course_applications. cbv zeta.
  rewrite status_update_passes_policies. cbn [guard bind].
  rewrite (forallb_false _ _ a Ha); [reflexivity|].
  rewrite update_application_targets_eq, Hmay, Hx, N.eqb_refl.
  unfold application_row_ok. simpl. now rewrite Hs.
Qed.

Lemma status_outside_domain_is_rejected_witness :
  updateApplicationStatus sample_env (Some 9%N) 300 "withdrawn" sample_db
  = mkoutcome sample_db "Update Failed" (Some ConstraintViolation).
Proof.
  apply (status_outside_domain_is_rejected sample_env (Some 9%N) 300
           "withdrawn" sample_db application_300); try reflexivity.
  simpl. auto.
Defined.

(** X10. An application cannot be handed to another student: an update by a
    caller without the admin role that sets [student_id] to another identity
    and targets at least one row is refused as a policy violation. *)
Theorem application_cannot_be_reassigned e c flt p other d a :
  has_role d c admin = false ->
  ApplicationPatch.student_id p = Some other ->
  uid_is c other = false ->
  In a (course_applications d) ->
  flt a = true ->
  uid_is c (Application.student_id a) = true ->
  update_course_applications e c flt p d = Err PolicyDenied.
Proof.
  intros Hadm Hp Hother Ha Hflt Hown.
  unfold update_course_applications. cbv zeta.
  rewrite (forallb_false _ _ a Ha); [reflexivity|].
  rewrite update_application_targets_eq, Hflt, Hown, applications_update_check.
  cbn [updated_application touch_application patch_application
         Application.student_id].
  rewrite Hp. cbn [default]. now rewrite Hother, Hadm.
Qed.

Lemma application_cannot_be_reassigned_witness :
  update_course_applications sample_env (Some 1%N)
    (fun a => N.eqb (Application.id a) 300)
    (ApplicationPatch.mk None (Some 2%N) None None None None) sample_db
  = Err PolicyDenied.
Proof.
  apply (application_cannot_be_reassigned sample_env (Some 1%N) _ _ 2%N
           sample_db application_300); try reflexivity.
  simpl. auto.
Defined.

(** ** Deleting a course *)

(** X11. An administrator deletes a stored course: the course is removed together
    with exactly the applications for it; every other course and application,
    and the other tables, stay. *)
Theorem deleteCourse_takes_its_applications c courseId d :
  has_role d c admin = true ->
  mem courseId (map Course.id (courses d)) = true ->
  deleteCourse c courseId d
  = mkoutcome
      (mkdb (users d) (profiles d) (user_roles d)
         (filter (fun r => negb (N.eqb (Course.id r) courseId)) (courses d))
         (filter (fun a => negb (N.eqb (Application.course_id a) courseId))
                 (course_applications d)))
      "Course Deleted" None.
Proof.
  intros Hadm Hex. unfold deleteCourse, delete_courses. cbv zeta.
  set (flt := fun r => N.eqb (Course.id r) courseId).
  assert (Hhit : forall r, targets courses_policies d c DELETE flt r = flt r).
  { intros r. rewrite (proj2 (course_targets_admin d c flt r)), Hadm.
    apply andb_true_r. }
  cbn [report]. f_equal. f_equal.
  - apply filter_ext. intros r. now rewrite Hhit.
  - apply filter_ext. intros a. f_equal.
    rewrite (filter_ext _ flt) by exact Hhit.
    destruct (N.eqb (Application.course_id a) courseId) eqn:E.
    + apply N.eqb_eq in E. rewrite E. apply mem_In.
      apply mem_In in Hex. apply in_map_iff in Hex as [r [Er Hr]].
      apply in_map_iff. exists r. split; [exact Er|].
      apply filter_In. split; [exact Hr|]. unfold flt. now apply N.eqb_eq.
    + destruct (mem (Application.course_id a)
                  (map Course.id (filter flt (courses d)))) eqn:M;
        [|reflexivity].
      apply mem_In in M. apply in_map_iff in M as [r [Er Hr]].
      apply filter_In in Hr as [_ Hr]. unfold flt in Hr.
      apply N.eqb_eq in Hr. apply N.eqb_neq in E. congruence.
Qed.

Lemma deleteCourse_takes_its_applications_witness :
  deleteCourse (Some 9%N) 10 sample_db
  = mkoutcome
      (mkdb (users sample_db) (profiles sample_db) (user_roles sample_db)
         [course_11] [])
      "Course Deleted" None.
Proof.
  exact (deleteCourse_takes_its_applications (Some 9%N) 10 sample_db
           eq_refl eq_refl).
Defined.

(** ** A new identity *)

Lemma no_rows_of_unknown_identity {A} (key : A -> uuid) (l : list A)
  (us : list uuid) (u : uuid) :
  forallb (fun r => mem (key r) us) l = true ->
  mem u us = false ->
  forall r, In r l -> N.eqb (key r) u = false.
Proof.
  intros Hfk Hu r Hr. rewrite forallb_forall in Hfk. specialize (Hfk r Hr).
  destruct (N.eqb (key r) u) eqn:E; [|reflexivity].
  apply N.eqb_eq in E. congruence.
Qed.

Lemma filter_snoc_all_but_last {A} (f : A -> bool) (l : list A) (x : A) :
  (forall r, In r l -> f r = true) -> f x = false -> filter f (l ++ [x]) = l.
Proof.
  intros Hl Hx. rewrite filter_app, filter_all by exact Hl.
  simpl. rewrite Hx. apply app_nil_r.
Qed.

Lemma filter_snoc_only_last {A} (f : A -> bool) (l : list A) (x : A) :
  (forall r, In r l -> f r = false) -> f x = true -> filter f (l ++ [x]) = [x].
Proof.
  intros Hl Hx. rewrite filter_app, filter_nothing by exact Hl.
  simpl. now rewrite Hx.
Qed.

(** X12. In a store that meets its constraints, an identity that was just created
    holds the student role and not the admin role, and its dashboard loads
    the profile seeded from the names the provider sent, with no phone. *)
Theorem new_identity_is_a_student e u d d' :
  constraints_hold d = true ->
  create_user e u d = Ok d' ->
  has_role d' (Some (auth_id u)) student = true
  /\ has_role d' (Some (auth_id u)) admin = false
  /\ fetchProfile d' (Some (auth_id u))
     = Some (mkform (meta_first_name u) (meta_last_name u) None).
Proof.
  intros Hd H.
  apply create_user_inv in H as (Hu & _ & _ & _ & _ & ->).
  apply constraints_parts in Hd as (_ & _ & H3 & _ & H5 & _ & _ & _).
  pose proof (no_rows_of_unknown_identity _ _ _ _ H5 Hu) as Hroles.
  pose proof (no_rows_of_unknown_identity _ _ _ _ H3 Hu) as Hprofiles.
  assert (Hold : forall r0,
             existsb (fun r => uid_is (Some (auth_id u)) (UserRole.user_id r)
                               && app_role_eqb (UserRole.role r) r0)
                     (user_roles d) = false).
  { intros r0. destruct (existsb _ _) eqn:E; [|reflexivity].
    apply existsb_exists in E as [r [Hr E]].
    apply andb_true_iff in E as [E _]. simpl in E.
    rewrite N.eqb_sym, (Hroles r Hr) in E. discriminate. }
  assert (Hadm : has_role
                   (mkdb (users d ++ [auth_id u])
                      (profiles d
                       ++ [Profile.mk (gen_random_uuid e 0) (auth_id u)
                             (meta_first_name u) (meta_last_name u) None None
                             (now e) (now e)])
                      (user_roles d
                       ++ [UserRole.mk (gen_random_uuid e 1) (auth_id u)
                             student (now e)])
                      (courses d) (course_applications d))
                   (Some (auth_id u)) admin = false).
  { unfold has_role. simpl. rewrite existsb_app, Hold. simpl.
    now rewrite andb_false_r. }
  split; [|split; [exact Hadm|]].
  - unfold has_role. simpl. rewrite existsb_app, Hold. simpl.
    now rewrite N.eqb_refl.
  - unfold fetchProfile, select_profiles, rls_select.
    rewrite filter_of_wider_filter.
    + cbn [profiles]. rewrite filter_snoc_only_last; [reflexivity| |].
      * exact Hprofiles.
      * apply N.eqb_refl.
    + intros p Hp. rewrite profiles_select_using. simpl.
      now rewrite N.eqb_sym, Hp.
Qed.

Lemma new_identity_is_a_student_witness :
  has_role (commit sample_db
              (create_user sample_env (mkuser 3 (Some "Cy") None) sample_db))
    (Some 3%N) admin = false.
Proof.
  exact (proj1 (proj2 (new_identity_is_a_student sample_env
                         (mkuser 3 (Some "Cy") None) sample_db _
                         eq_refl eq_refl))).
Defined.

(** X13. Deleting an identity right after its creation gives back the store as it
    was before, provided that store met its constraints: the cascade removes
    the identity's profile and role and nothing else. *)
Theorem delete_user_undoes_create_user e u d d' :
  constraints_hold d = true ->
  create_user e u d = Ok d' ->
  delete_user (auth_id u) d' = d.
Proof.
  intros Hd H.
  apply create_user_inv in H as (Hu & _ & _ & _ & _ & ->).
  apply constraints_parts in Hd as (_ & _ & H3 & _ & H5 & _ & _ & H8).
  unfold delete_user. simpl.
  rewrite !filter_snoc_all_but_last.
  - rewrite filter_all; [now destruct d|].
    intros a Ha. rewrite forallb_forall in H8. specialize (H8 a Ha).
    unfold application_row_ok in H8.
    apply andb_true_iff in H8 as [H8 _]. apply andb_true_iff in H8 as [_ H8].
    destruct (N.eqb (Application.student_id a) (auth_id u)) eqn:E;
      [|reflexivity].
    apply N.eqb_eq in E. congruence.
  - intros r Hr.
    now rewrite (no_rows_of_unknown_identity _ _ _ _ H5 Hu r Hr).
  - simpl. now rewrite N.eqb_refl.
  - intros r Hr.
    now rewrite (no_rows_of_unknown_identity _ _ _ _ H3 Hu r Hr).
  - simpl. now rewrite N.eqb_refl.
  - intros x Hx. destruct (N.eqb x (auth_id u)) eqn:E; [|reflexivity].
    apply N.eqb_eq in E. apply mem_In in Hx. congruence.
  - now rewrite N.eqb_refl.
Qed.

Lemma delete_user_undoes_create_user_witness :
  delete_user 3
    (commit sample_db
       (create_user sample_env (mkuser 3 (Some "Cy") None) sample_db))
  = sample_db.
Proof.
  exact (delete_user_undoes_create_user sample_env
           (mkuser 3 (Some "Cy") None) sample_db _ eq_refl eq_refl).
Defined.

(** ** The profile form *)

Lemma the_row_with_key {A} (key : A -> uuid) (k : uuid) (l : list A) :
  distinctb N.eqb (map key l) = true ->
  mem k (map key l) = true ->
  exists r, filter (fun r => N.eqb (key r) k) l = [r].
Proof.
  induction l as [|x l IH]; simpl; [discriminate|].
  rewrite andb_true_iff, negb_true_iff. intros [Hx Hl] Hk.
  destruct (N.eqb (key x) k) eqn:E.
  - exists x. f_equal. apply filter_nothing.
    apply N.eqb_eq in E. subst k.
    intros r Hr. destruct (N.eqb (key r) (key x)) eqn:Er; [|reflexivity].
    apply N.eqb_eq in Er.
    assert (mem (key x) (map key l) = true); [|unfold mem in *; congruence].
    apply mem_In. rewrite <- Er. now apply in_map.
  - apply IH; [exact Hl|]. unfold mem in *. simpl in Hk.
    rewrite N.eqb_sym, E in Hk. exact Hk.
Qed.

Lemma filter_rewritten_key {A} (key : A -> uuid) (k : uuid) (g : A -> A)
  (l : list A) :
  (forall r, key (g r) = key r) ->
  filter (fun r => N.eqb (key r) k) (map g l)
  = map g (filter (fun r => N.eqb (key r) k) l).
Proof.
  intros Hg. induction l as [|x l IH]; simpl; [reflexivity|].
  rewrite Hg. destruct (N.eqb (key x) k); simpl; now rewrite IH.
Qed.

(** X14. What the student saves in the profile form is what the dashboard loads
    afterwards, in a store that meets its constraints and holds a profile of
    the student. *)
Theorem saved_profile_is_loaded e uid profile d :
  constraints_hold d = true ->
  mem uid (map Profile.user_id (profiles d)) = true ->
  toast_error (updateProfile e (Some uid) profile d) = None
  /\ fetchProfile (store (updateProfile e (Some uid) profile d)) (Some uid)
     = Some profile.
Proof.
  intros Hd Hp.
  apply constraints_parts in Hd as (_ & H2 & H3 & _ & _ & _ & _ & _).
  assert (Hu : mem uid (users d) = true).
  { apply mem_In in Hp. apply in_map_iff in Hp as [p [<- Hp]].
    rewrite forallb_forall in H3. now apply H3. }
  rewrite (updateProfile_by_owner e uid profile d Hu H2).
  split; [reflexivity|]. cbn [store].
  unfold fetchProfile, select_profiles, rls_select.
  rewrite filter_of_wider_filter.
  - cbn [profiles set_profiles].
    rewrite (filter_rewritten_key Profile.user_id).
    + unfold profiles_unique in H2. apply andb_true_iff in H2 as [_ H2].
      destruct (the_row_with_key Profile.user_id uid _ H2 Hp) as [p Ep].
      rewrite Ep. simpl.
      assert (E : N.eqb (Profile.user_id p) uid = true).
      { assert (Hin : In p (filter (fun r => N.eqb (Profile.user_id r) uid)
                               (profiles d))) by (rewrite Ep; now left).
        now apply filter_In in Hin as [_ Hin]. }
      rewrite E. simpl. now destruct profile.
    + intros r. now destruct (N.eqb (Profile.user_id r) uid).
  - intros p Hq. rewrite profiles_select_using. simpl.
    now rewrite N.eqb_sym, Hq.
Qed.

Lemma saved_profile_is_loaded_witness :
  fetchProfile
    (store (updateProfile sample_env (Some 1%N)
              (mkform (Some "Ada") (Some "Lovelace") (Some "0700"))
              sample_db))
    (Some 1%N)
  = Some (mkform (Some "Ada") (Some "Lovelace") (Some "0700")).
Proof.
  exact (proj2 (saved_profile_is_loaded sample_env 1%N
                  (mkform (Some "Ada") (Some "Lovelace") (Some "0700"))
                  sample_db eq_refl eq_refl)).
Defined.

(** ** The catalogue *)



(** ** Saving a course twice *)

(** The patch [updateCourse] sends, and the filter it sends with it. *)
Lemma update_courses_by_admin e c flt p d :
  has_role d c admin = true ->
  (forall r, Course.id (updated_course e p r) = Course.id r) ->
  distinctb N.eqb (map Course.id (courses d)) = true ->
  applications_reference (courses d) (course_applications d) = true ->
  update_courses e c flt p d
  = Ok (set_courses d
          (map (fun r => if flt r then updated_course e p r else r)
               (courses d))).
Proof.
  intros Hadm Hid Hk Href. unfold update_courses. cbv zeta.
  assert (Hhit : forall r, update_course_targets d c flt r = flt r).
  { intros r. rewrite (proj1 (course_targets_admin d c flt r)), Hadm.
    apply andb_true_r. }
  assert (G1 : forallb
                 (fun r => implb (update_course_targets d c flt r)
                    (check_ok courses_policies d c UPDATE
                       (updated_course e p r)
                     && using_ok courses_policies d c SELECT
                          (updated_course e p r)))
                 (courses d) = true).
  { apply forallb_forall. intros r _.
    rewrite courses_update_check, courses_select_using, Hadm, orb_true_r.
    now destruct (update_course_targets d c flt r). }
  rewrite G1. cbn [guard bind].
  rewrite (map_rewritten_key Course.id) by exact Hid.
  unfold applications_reference in *.
  rewrite (map_rewritten_key Course.id) by exact Hid.
  rewrite Hk, Href. cbn [andb guard bind]. f_equal. f_equal.
  apply map_ext. intros r. now rewrite Hhit.
Qed.

(** X16. Saving the same course form twice leaves what saving it once at the
    second time leaves: the same rows, no duplicate, [updated_at] at the
    time of the second save.  This holds for every caller and every store. *)
Theorem updateCourse_twice e1 e2 c course d :
  store (updateCourse e2 c course (store (updateCourse e1 c course d)))
  = store (updateCourse e2 c course d).
Proof.
  unfold updateCourse. rewrite !store_report.
  set (flt := fun r => N.eqb (Course.id r) (Course.id course)).
  set (p := CoursePatch.mk None (Some (Course.name course))
              (Some (Course.description course))
              (Some (Course.duration course))
              (Some (Course.availability course))
              (Some (Course.max_students course)) None None).
  destruct (update_courses e1 c flt p d) as [d1|x] eqn:H1; [|reflexivity].
  cbn [commit].
  destruct (has_role d c admin) eqn:Hadm.
  - pose proof (update_courses_inv _ _ _ _ _ _ H1) as (Hk1 & Href1 & E1).
    assert (Hid : forall e r, Course.id (updated_course e p r) = Course.id r)
      by reflexivity.
    rewrite (map_rewritten_key Course.id) in Hk1 by apply Hid.
    unfold applications_reference in Href1.
    rewrite (map_rewritten_key Course.id) in Href1 by apply Hid.
    assert (Hhit : forall r, update_course_targets d c flt r = flt r).
    { intros r. rewrite (proj1 (course_targets_admin d c flt r)), Hadm.
      apply andb_true_r. }
    rewrite (update_courses_by_admin e2 c flt p d Hadm (Hid e2) Hk1 Href1).
    subst d1. rewrite update_courses_by_admin; auto.
    + cbn [commit courses set_courses]. unfold set_courses.
      cbn [users profiles user_roles course_applications].
      f_equal. rewrite map_map. apply map_ext. intros r. rewrite Hhit.
      destruct (flt r) eqn:Er.
      * assert (flt (updated_course e1 p r) = true) as -> by exact Er.
        reflexivity.
      * now rewrite Er.
    + cbn [courses set_courses].
      now rewrite (map_rewritten_key Course.id) by apply Hid.
    + unfold applications_reference. cbn [courses course_applications set_courses].
      now rewrite (map_rewritten_key Course.id) by apply Hid.
  - apply update_courses_by_non_admin in H1; [|exact Hadm]. now subst d1.
Qed.

(** ** Searching the catalogue *)

Lemma includes_empty s : includes s EmptyString = true.
Proof. destruct s; reflexivity. Qed.

(** X17. With an empty search box the filter returns the whole list and never
    throws, whatever the descriptions are. *)
Theorem empty_search_keeps_every_course courses :
  filteredCourses courses EmptyString = Normal courses.
Proof.
  unfold filteredCourses.
  rewrite (array_filter_returns _ (fun _ => true)).
  - f_equal. now apply filter_all.
  - intros course _. unfold course_matches. simpl.
    now rewrite includes_empty.
Qed.

Lemma lower_ascii_twice a : lower_ascii (lower_ascii a) = lower_ascii a.
Proof. destruct a as [[] [] [] [] [] [] [] []]; reflexivity. Qed.

Lemma toLowerCase_twice s : toLowerCase (toLowerCase s) = toLowerCase s.
Proof.
  induction s as [|a s IH]; simpl; [reflexivity|].
  now rewrite lower_ascii_twice, IH.
Qed.


(** X18. The case of the search term does not matter: the term and its lower-case
    form give the same outcome, result or exception, on every list. *)
Theorem search_ignores_case_of_term courses searchTerm :
  filteredCourses courses (toLowerCase searchTerm)
  = filteredCourses courses searchTerm.
Proof.
  unfold filteredCourses.
  induction courses as [|course rest IH]; simpl; [reflexivity|].
  unfold course_matches at 1 3. rewrite toLowerCase_twice, IH. reflexivity.
Qed.





(** ** The student's list of applications *)

Lemma find_none {A} (f : A -> bool) (l : list A) :
  (forall x, In x l -> f x = false) -> find f l = None.
Proof.
  induction l as [|x l IH]; simpl; intros H; [reflexivity|].
  rewrite (H x (or_introl eq_refl)). apply IH. intros y Hy. apply H. now right.
Qed.

(** With distinct ids, looking a stored course up by its id among the
    courses a filter keeps finds that course, or nothing when the filter
    drops it. *)
Lemma find_course_among_kept (keep : Course.t -> bool) (l : list Course.t)
  (course : Course.t) :
  distinctb N.eqb (map Course.id l) = true ->
  In course l ->
  find (fun c => N.eqb (Course.id c) (Course.id course)) (filter keep l)
  = if keep course then Some course else None.
Proof.
  induction l as [|x l IH]; simpl; [intros _ []|].
  rewrite andb_true_iff, negb_true_iff. intros [Hx Hl] Hin.
  assert (Hfresh : forall y, In y l -> N.eqb (Course.id y) (Course.id x)
                                       = false).
  { intros y Hy. destruct (N.eqb (Course.id y) (Course.id x)) eqn:E;
      [|reflexivity].
    apply N.eqb_eq in E.
    assert (mem (Course.id x) (map Course.id l) = true);
      [|unfold mem in *; congruence].
    apply mem_In. rewrite <- E. now apply in_map. }
  destruct Hin as [->|Hin].
  - destruct (keep course); simpl.
    + now rewrite N.eqb_refl.
    + apply find_none. intros y Hy. apply filter_In in Hy as [Hy _]. auto.
  - pose proof (Hfresh course Hin) as E. rewrite N.eqb_sym in E.
    destruct (keep x); simpl; rewrite ?E; auto.
Qed.

(** X20. In a store that meets its constraints, the student's dashboard has an
    entry for each application of the student.  The entry carries the course
    when the course is available (or the user is an administrator); when the
    course is not available the embedded course is null and the card title
    [application.courses.name] throws. *)
Theorem application_card_needs_visible_course d uid app course :
  constraints_hold d = true ->
  In app (course_applications d) ->
  Application.student_id app = uid ->
  In course (courses d) ->
  Course.id course = Application.course_id app ->
  exists entry,
    In entry (fetchApplications d (Some uid))
    /\ entry_id entry = Application.id app
    /\ entry_status entry = Application.status app
    /\ card_title entry
       = if Course.availability course || has_role d (Some uid) admin
         then Normal (Course.name course)
         else TypeError.
Proof.
  intros Hd Happ Hown Hcourse Hid.
  apply constraints_parts in Hd as (_ & _ & _ & _ & _ & H6 & _ & _).
  exists (mkentry (Application.id app) (Application.status app)
            (Application.applied_at app)
            (embedded_course d (Some uid) (Application.course_id app))).
  split; [|split; [reflexivity | split; [reflexivity|]]].
  - unfold fetchApplications.
    apply (in_map (fun a => mkentry (Application.id a) (Application.status a)
                              (Application.applied_at a)
                              (embedded_course d (Some uid)
                                 (Application.course_id a)))).
    apply filter_In. split; [|now apply N.eqb_eq].
    unfold select_course_applications, rls_select. apply filter_In.
    split; [exact Happ|]. rewrite applications_select_using. simpl.
    now rewrite Hown, N.eqb_refl.
  - unfold card_title, embedded_course, select_courses, rls_select.
    cbn [entry_courses]. rewrite <- Hid.
    rewrite (find_course_among_kept _ _ course H6 Hcourse).
    rewrite courses_select_using.
    now destruct (Course.availability course || has_role d (Some uid) admin).
Qed.

Lemma application_card_needs_visible_course_witness :
  exists entry,
    In entry
       (fetchApplications
          (store (updateCourse sample_env (Some 9%N)
                    (Course.mk 10 "Introduction to Programming"
                       (Some "Learn the basics of programming with Python")
                       (Some "12 weeks") false (Some 50%Z) 1 1)
                    sample_db))
          (Some 1%N))
    /\ entry_id entry = 300%N
    /\ entry_status entry = "pending"
    /\ card_title entry = TypeError.
Proof.
  exact (application_card_needs_visible_course
           (store (updateCourse sample_env (Some 9%N)
                     (Course.mk 10 "Introduction to Programming"
                        (Some "Learn the basics of programming with Python")
                        (Some "12 weeks") false (Some 50%Z) 1 1)
                     sample_db))
           1%N application_300
           (Course.mk 10 "Introduction to Programming"
              (Some "Learn the basics of programming with Python")
              (Some "12 weeks") false (Some 50%Z) 1 1000)
           eq_refl (or_introl eq_refl) eq_refl (or_introl eq_refl) eq_refl).
Defined.

(** ** Creating a course *)



(** ** Deciding again *)

Lemma updateApplicationStatus_went_through e c x s d :
  constraints_hold d = true ->
  status_check s = true ->
  update_course_applications e c
    (fun a => N.eqb (Application.id a) x)
    (ApplicationPatch.mk None None None (Some s) None None) d
  = Ok (store (updateApplicationStatus e c x s d)).
Proof.
  intros Hd Hs.
  pose proof (updateApplicationStatus_outcome e c x s d Hd Hs) as E.
  unfold updateApplicationStatus in *.
  destruct (update_course_applications _ _ _ _ d) as [d1|err];
    [reflexivity | discriminate].
Qed.

(** X22. The last status written wins.  In a store that meets its constraints, a
    status update that follows another one on the same application, by the
    same caller, leaves what it would have left alone: a decided application
    can be decided again, and deciding twice the same way only moves
    [updated_at]. *)
Theorem last_status_update_wins e1 e2 c x s1 s2 d :
  constraints_hold d = true ->
  status_check s1 = true ->
  status_check s2 = true ->
  store (updateApplicationStatus e2 c x s2
           (store (updateApplicationStatus e1 c x s1 d)))
  = store (updateApplicationStatus e2 c x s2 d).
Proof.
  intros Hd H1 H2.
  pose proof (updateApplicationStatus_went_through e1 c x s1 d Hd H1) as Hok.
  pose proof (update_applications_keeps_constraints _ _ _ _ _ _ Hd Hok) as Hd1.
  rewrite (updateApplicationStatus_outcome e2 c x s2 _ Hd1 H2).
  rewrite (updateApplicationStatus_outcome e2 c x s2 d Hd H2).
  rewrite (updateApplicationStatus_outcome e1 c x s1 d Hd H1).
  cbn [store course_applications set_course_applications].
  unfold set_course_applications.
  cbn [users profiles user_roles courses course_applications].
  f_equal. rewrite map_map. apply map_ext. intros a.
  change (has_role (mkdb (users d) (profiles d) (user_roles d) (courses d) _)
            c admin) with (has_role d c admin).
  destruct (N.eqb (Application.id a) x
            && (uid_is c (Application.student_id a) || has_role d c admin))
    eqn:E.
  - cbn [Application.id Application.student_id Application.course_id
           Application.applied_at]. now rewrite E.
  - now rewrite E.
Qed.

Lemma last_status_update_wins_witness :
  store (updateApplicationStatus sample_env (Some 9%N) 301 "rejected"
           (store (updateApplicationStatus sample_env (Some 9%N) 301
                     "approved" sample_db)))
  = store (updateApplicationStatus sample_env (Some 9%N) 301 "rejected"
             sample_db).
Proof.
  exact (last_status_update_wins sample_env sample_env (Some 9%N) 301
           "approved" "rejected" sample_db eq_refl eq_refl eq_refl).
Defined.

(** ** Reading profiles and roles *)

Lemma user_roles_select_using d c r :
  using_ok user_roles_policies d c SELECT r
  = uid_is c (UserRole.user_id r) || has_role d c admin.
Proof.
  unfold using_ok, user_roles_policies, applies, eval_using; simpl.
  destruct (uid_is c (UserRole.user_id r)), (has_role d c admin); reflexivity.
Qed.

(** X23. A caller who holds the admin role reads every profile and every role
    assignment; any other caller reads exactly the own profile and the own
    role assignments, and the anonymous caller reads none. *)
Theorem profile_and_role_read_visibility d c :
  select_profiles d c
  = (if has_role d c admin then profiles d
     else filter (fun p => uid_is c (Profile.user_id p)) (profiles d))
  /\ select_user_roles d c
     = (if has_role d c admin then user_roles d
        else filter (fun r => uid_is c (UserRole.user_id r)) (user_roles d))
  /\ select_profiles d None = []
  /\ select_user_roles d None = [].
Proof.
  assert (Hp : forall c0, select_profiles d c0
                = if has_role d c0 admin then profiles d
                  else filter (fun p => uid_is c0 (Profile.user_id p))
                              (profiles d)).
  { intros c0. unfold select_profiles, rls_select.
    destruct (has_role d c0 admin) eqn:Hadm.
    - apply filter_all. intros r _.
      rewrite profiles_select_using, Hadm. apply orb_true_r.
    - apply filter_ext. intros r.
      rewrite profiles_select_using, Hadm. apply orb_false_r. }
  assert (Hr : forall c0, select_user_roles d c0
                = if has_role d c0 admin then user_roles d
                  else filter (fun r => uid_is c0 (UserRole.user_id r))
                              (user_roles d)).
  { intros c0. unfold select_user_roles, rls_select.
    destruct (has_role d c0 admin) eqn:Hadm.
    - apply filter_all. intros r _.
      rewrite user_roles_select_using, Hadm. apply orb_true_r.
    - apply filter_ext. intros r.
      rewrite user_roles_select_using, Hadm. apply orb_false_r. }
  split; [apply Hp | split; [apply Hr | split]].
  - rewrite Hp, anonymous_has_no_role. now apply filter_nothing.
  - rewrite Hr, anonymous_has_no_role. now apply filter_nothing.
Qed.

(** ** The filter on described courses *)


